(** * Auto Typewriter: a shallow embedding of [src/main.js]

    The development follows the [AutoTypewriter] class of [src/main.js]:
    the configuration prompt ([setupConfiguration]), the session control
    methods ([startTyping], [togglePause], [stop]), the tick
    ([typeNextCharacter]) and the status snapshot ([getStatus]).

    Modelling conventions.
    - A JavaScript string is the list of its UTF-16 code units.
    - Integer-valued JavaScript numbers (rates, counters, timestamps in
      milliseconds, key codes) are modelled as [Z] or [N]; the model is exact
      while they stay below 2^53, where a double holds every integer.  A
      number that may be [NaN] is an [option], with [None] for [NaN].
    - [msToWait] is the one value obtained by a division; it is a binary64
      float, computed with the kernel's IEEE 754 division.
    - The browser's table of active timers is a finite map from timer
      handles to what was scheduled. *)

From Stdlib Require Import ZArith NArith List String Ascii Bool Lia.
From Stdlib Require Import Floats Uint63 DecimalString.
From stdpp Require Import gmap.

Open Scope Z_scope.

(** ** JavaScript strings and [parseInt] *)

Module JsString.

Definition jsstring := list N.

(** A string literal of the source, as code units (ASCII literals only). *)
Definition js (s : string) : jsstring :=
  map N_of_ascii (list_ascii_of_string s).

(** [WhiteSpace] and [LineTerminator] code points of ECMAScript, the ones
    [parseInt] skips at the start of its argument. *)
Definition isStrWhiteSpaceChar (c : N) : bool :=
  ((9 <=? c) && (c <=? 13) || (c =? 32) || (c =? 160) || (c =? 5760)
   || (8192 <=? c) && (c <=? 8202) || (c =? 8232) || (c =? 8233)
   || (c =? 8239) || (c =? 8287) || (c =? 12288) || (c =? 65279))%N.

Fixpoint trimStart (s : jsstring) : jsstring :=
  match s with
  | c :: rest => if isStrWhiteSpaceChar c then trimStart rest else s
  | [] => []
  end.

(** The value of a code unit as a digit: 0-9, then letters a-z or A-Z for
    10 to 35. *)
Definition digitValue (c : N) : option Z :=
  if ((48 <=? c) && (c <=? 57))%N then Some (Z.of_N c - 48)
  else if ((97 <=? c) && (c <=? 122))%N then Some (Z.of_N c - 87)
  else if ((65 <=? c) && (c <=? 90))%N then Some (Z.of_N c - 55)
  else None.

Definition radixDigit (R : Z) (c : N) : option Z :=
  match digitValue c with
  | Some d => if d <? R then Some d else None
  | None => None
  end.

(** The longest prefix of radix-[R] digits, read as an integer: [acc] is
    the value of the digits read so far, [seen] whether there was one. *)
Fixpoint readDigits (R : Z) (s : jsstring) (seen : bool) (acc : Z) : option Z :=
  match s with
  | c :: rest =>
      match radixDigit R c with
      | Some d => readDigits R rest true (acc * R + d)
      | None => if seen then Some acc else None
      end
  | [] => if seen then Some acc else None
  end.

Definition isDecimalDigit (c : N) : bool := ((48 <=? c) && (c <=? 57))%N.

(** The sign character, if there is one, and the rest. *)
Definition stripSign (str : jsstring) : Z * jsstring :=
  match str with
  | c :: rest =>
      if (c =? 45)%N then (-1, rest)          (* "-" *)
      else if (c =? 43)%N then (1, rest)      (* "+" *)
      else (1, str)
  | [] => (1, str)
  end.

(** The radix, and the string without a leading "0x" or "0X". *)
Definition stripPrefix (str : jsstring) : Z * jsstring :=
  match str with
  | c0 :: c1 :: rest =>
      if ((c0 =? 48) && ((c1 =? 120) || (c1 =? 88)))%N then (16, rest)
      else (10, str)
  | _ => (10, str)
  end.

(** [parseInt(string)] with no radix argument.  [None] is [NaN]. *)
Definition parseInt (inputString : jsstring) : option Z :=
  let '(sign, str) := stripSign (trimStart inputString) in
  let '(R, str) := stripPrefix str in
  match readDigits R str false 0 with
  | Some mathInt => Some (sign * mathInt)
  | None => None
  end.

(** [ToString] of what [prompt] returns: the text entered, or [null] when
    the dialog is cancelled. *)
Definition ToString (v : option jsstring) : jsstring :=
  match v with
  | Some s => s
  | None => js "null"
  end.

(** [s.charCodeAt(i)]; [None] is [NaN] (index out of range). *)
Definition charCodeAt (s : jsstring) (i : nat) : option N := nth_error s i.

Definition jsstring_eqb (a b : jsstring) : bool :=
  bool_decide (a = b).

(** Truthiness of a string: only the empty string is falsy. *)
Definition truthy (s : jsstring) : bool :=
  match s with [] => false | _ :: _ => true end.

End JsString.
Import JsString.

(** ** Numbers *)

(** An integer as a double (exact for 0 <= z < 2^53; the program converts
    rates of 1..10000 only). *)
Definition num_of_Z (z : Z) : float := PrimFloat.of_uint63 (Uint63.of_Z z).

(** ** The object's fields (constructor of [AutoTypewriter]) *)

(** A reference to a DOM element of the host page. *)
Definition Element := nat.

Record Config := mkConfig {
  charsPerTenMins : Z;
  msToWait : float;
  targetElement : option Element;
  startBox : option Element
}.

Record Stats := mkStats {
  charactersTyped : Z;
  startTime : option Z;
  lastTypedTime : option Z
}.

(** The part of the overlay the controller's methods read and write: the
    label of the pause button, when the button is found. *)
Record Overlay := mkOverlay {
  pauseBtn : option jsstring
}.

Definition TimerHandle := positive.

Record AutoTypewriter := mkApp {
  isRunning : bool;
  isPaused : bool;
  intervalId : option TimerHandle;
  observer : option Element;
  isDarkMode : bool;
  config : Config;
  ui : option Overlay;
  stats : Stats;
  statsInterval : option TimerHandle
}.

Definition constructor : AutoTypewriter :=
  {| isRunning := false;
     isPaused := false;
     intervalId := None;
     observer := None;
     isDarkMode := true;
     config := {| charsPerTenMins := 0; msToWait := 0%float;
                  targetElement := None; startBox := None |};
     ui := None;
     stats := {| charactersTyped := 0; startTime := None;
                 lastTypedTime := None |};
     statsInterval := None |}.

Definition set_config (c : Config) (a : AutoTypewriter) : AutoTypewriter :=
  {| isRunning := isRunning a; isPaused := isPaused a;
     intervalId := intervalId a; observer := observer a;
     isDarkMode := isDarkMode a; config := c; ui := ui a; stats := stats a;
     statsInterval := statsInterval a |}.

Definition set_stats (st : Stats) (a : AutoTypewriter) : AutoTypewriter :=
  {| isRunning := isRunning a; isPaused := isPaused a;
     intervalId := intervalId a; observer := observer a;
     isDarkMode := isDarkMode a; config := config a; ui := ui a; stats := st;
     statsInterval := statsInterval a |}.

Definition set_ui (u : option Overlay) (a : AutoTypewriter) : AutoTypewriter :=
  {| isRunning := isRunning a; isPaused := isPaused a;
     intervalId := intervalId a; observer := observer a;
     isDarkMode := isDarkMode a; config := config a; ui := u; stats := stats a;
     statsInterval := statsInterval a |}.

(** ** [setupConfiguration] *)

(** What the two [querySelector] lookups of [setupConfiguration] find on the
    host page: the start dialog, and the first child of [#text_todo_1]. *)
Record Page := mkPage {
  startDialog : option Element;
  startDialogHidden : bool;      (* its style.display is "none" *)
  textTodoChild : option Element
}.

(** The condition of the [do ... while] loop: the answer is asked again
    while it holds. *)
Definition askAgain (charsPerTenMins : option Z) : bool :=
  match charsPerTenMins with
  | None => true
  | Some n => (n <=? 0) || (n >? 10000)
  end.

(** The prompt loop, run against the answers the user gives in order.
    [None] means the dialog is still open: every answer so far was turned
    down.  Otherwise the accepted rate, and the answers not yet used. *)
Fixpoint promptLoop (answers : list (option jsstring))
  : option (Z * list (option jsstring)) :=
  match answers with
  | [] => None
  | a :: rest =>
      match parseInt (ToString a) with
      | Some n => if askAgain (Some n) then promptLoop rest else Some (n, rest)
      | None => promptLoop rest
      end
  end.

Inductive SetupResult :=
| SetupThrows (a : AutoTypewriter)
    (* Error('Target element not found. ...') *)
| SetupPrompting (a : AutoTypewriter)
    (* the blocking prompt has not yet received an accepted answer *)
| SetupDone (a : AutoTypewriter) (unused : list (option jsstring)).

Definition setupConfiguration (page : Page) (answers : list (option jsstring))
    (a : AutoTypewriter) : SetupResult :=
  let c := config a in
  let c := {| charsPerTenMins := charsPerTenMins c; msToWait := msToWait c;
              targetElement := textTodoChild page;
              startBox := startDialog page |} in
  match targetElement c with
  | None => SetupThrows (set_config c a)
  | Some _ =>
      match promptLoop answers with
      | None => SetupPrompting (set_config c a)
      | Some (n, rest) =>
          SetupDone
            (set_config {| charsPerTenMins := n;
                           msToWait := (600000 / num_of_Z n)%float;
                           targetElement := targetElement c;
                           startBox := startBox c |} a)
            rest
      end
  end.

(** [isValidInput], the unused validator of the class (upper bound 1000). *)
Definition isValidInput (input : jsstring) : bool :=
  match parseInt input with
  | Some num => (0 <? num) && (num <=? 1000)
  | None => false
  end.

(** ** Timers of the browser *)

Inductive Callback :=
| TypingTick     (* the arrow function given to setInterval in startTyping *)
| StatsRedraw.   (* the one given in createUI: it calls updateStats *)

Record Timer := mkTimer {
  callback : Callback;
  delay : float
}.

(** The active timers, and the handle the next [setInterval] returns.
    Handles are positive integers, hence truthy. *)
Record Timers := mkTimers {
  active : gmap TimerHandle Timer;
  nextHandle : TimerHandle
}.

Definition setInterval (cb : Callback) (ms : float) (t : Timers)
  : TimerHandle * Timers :=
  (nextHandle t,
   {| active := <[nextHandle t := {| callback := cb; delay := ms |}]> (active t);
      nextHandle := (nextHandle t + 1)%positive |}).

Definition clearInterval (h : TimerHandle) (t : Timers) : Timers :=
  {| active := delete h (active t); nextHandle := nextHandle t |}.

(** The object together with the timers it has scheduled. *)
Record World := mkWorld {
  app : AutoTypewriter;
  timers : Timers
}.

(** ** Session control: [startTyping], [togglePause], [stop], [closeUI] *)

Definition startTyping (now : Z) (w : World) : World :=
  let a := app w in
  if isRunning a then w
  else
    let '(h, t) := setInterval TypingTick (msToWait (config a)) (timers w) in
    {| app :=
         {| isRunning := true;
            isPaused := false;
            intervalId := Some h;
            observer := observer a;
            isDarkMode := isDarkMode a;
            config := config a;
            ui := ui a;
            stats := {| charactersTyped := 0;
                        startTime := Some now;
                        lastTypedTime := lastTypedTime (stats a) |};
            statsInterval := statsInterval a |};
       timers := t |}.

Inductive JsError := TypeError | Error (msg : string).

(** How a method call ends: it returns, or it throws; either way the
    object is left in some state. *)
Inductive Completion (A : Type) :=
| Normal (a : A)
| Throw (e : JsError) (a : A).
Arguments Normal {A} a.
Arguments Throw {A} e a.

Definition stateOf {A : Type} (c : Completion A) : A :=
  match c with Normal a => a | Throw _ a => a end.

Definition set_isPaused (b : bool) (a : AutoTypewriter) : AutoTypewriter :=
  {| isRunning := isRunning a; isPaused := b;
     intervalId := intervalId a; observer := observer a;
     isDarkMode := isDarkMode a; config := config a; ui := ui a;
     stats := stats a; statsInterval := statsInterval a |}.

Definition togglePause (a : AutoTypewriter) : Completion AutoTypewriter :=
  if negb (isRunning a) then Normal a
  else
    let a := set_isPaused (negb (isPaused a)) a in
    match ui a with
    | None => Throw TypeError a          (* this.ui.querySelector on null *)
    | Some o =>
        match pauseBtn o with
        | Some _ =>
            Normal (set_ui (Some {| pauseBtn :=
                       Some (if isPaused a then js "Resume" else js "Pause") |}) a)
        | None => Normal a
        end
    end.

Definition stop (w : World) : World :=
  let a := app w in
  let t := match intervalId a with
           | Some h => clearInterval h (timers w)
           | None => timers w
           end in
  {| app :=
       {| isRunning := false;
          isPaused := false;
          intervalId := None;
          observer := None;
          isDarkMode := isDarkMode a;
          config := config a;
          ui := ui a;
          stats := stats a;
          statsInterval := statsInterval a |};
     timers := t |}.

Definition closeUI (w : World) : World :=
  let w := stop w in
  let a := set_ui None (app w) in
  {| app := a;
     timers := match statsInterval a with
               | Some h => clearInterval h (timers w)
               | None => timers w
               end |}.

(** ** The tick: [typeNextCharacter] *)

Record KeyboardEvent := mkKeyboardEvent {
  type : jsstring;
  key : jsstring;
  keyCode : option N;
  altKey : bool;
  ctrlKey : bool;
  shiftKey : bool;
  metaKey : bool;
  bubbles : bool;
  cancelable : bool
}.

(** What the host page shows when a tick runs: the markup of each element,
    the element holding the focus, and the clock. *)
Record Host := mkHost {
  innerHTML : Element -> jsstring;
  activeElement : option Element;
  now : Z
}.

(** A call [el.dispatchEvent(ev)]. *)
Definition Dispatch := (Element * KeyboardEvent)%type.

(** The body of the [try] block. *)
Definition typeNextCharacter_try (host : Host) (a : AutoTypewriter)
  : Completion (AutoTypewriter * list Dispatch) :=
  match targetElement (config a) with
  | None => Throw TypeError (a, [])       (* innerHTML of null or undefined *)
  | Some target =>
      let keyToPress := innerHTML host target in
      if negb (truthy keyToPress) then Normal (a, [])
      else
        let event :=
          {| type := js "keypress";
             key := keyToPress;
             keyCode := if jsstring_eqb keyToPress (js " ") then Some 32%N
                        else charCodeAt keyToPress 0;
             altKey := false;
             ctrlKey := false;
             shiftKey := false;
             metaKey := false;
             bubbles := true;
             cancelable := true |} in
        match activeElement host with
        | Some el =>
            Normal
              (set_stats {| charactersTyped := charactersTyped (stats a) + 1;
                            startTime := startTime (stats a);
                            lastTypedTime := Some (now host) |} a,
               [(el, event)])
        | None => Normal (a, [])
        end
  end.

(** [typeNextCharacter]: the [catch] clause is empty, so the call always
    returns. *)
Definition typeNextCharacter (host : Host) (a : AutoTypewriter)
  : AutoTypewriter * list Dispatch :=
  match typeNextCharacter_try host a with
  | Normal r => r
  | Throw _ r => r
  end.

(** The function scheduled by [startTyping]. *)
Definition intervalCallback (host : Host) (a : AutoTypewriter)
  : AutoTypewriter * list Dispatch :=
  if negb (isPaused a) then typeNextCharacter host a else (a, []).

(** ** [getStatus] *)

Module Status.
Record t := mk {
  isRunning : bool;
  charsPerTenMins : Z;
  msToWait : float;
  targetElement : bool;
  charactersTyped : Z;
  timeRunning : Z
}.
End Status.

(** Truthiness of a number that is an integer or [null]. *)
Definition truthyNum (n : option Z) : bool :=
  match n with
  | Some v => negb (v =? 0)
  | None => false
  end.

Definition getStatus (now : Z) (a : AutoTypewriter) : Status.t :=
  {| Status.isRunning := isRunning a;
     Status.charsPerTenMins := charsPerTenMins (config a);
     Status.msToWait := msToWait (config a);
     Status.targetElement :=
       match targetElement (config a) with Some _ => true | None => false end;
     Status.charactersTyped := charactersTyped (stats a);
     Status.timeRunning :=
       match startTime (stats a) with
       | Some t => if truthyNum (Some t) then now - t else 0
       | None => 0
       end |}.

(** ** Start-up: [createUI], [setupEventHandling], [init] *)

Definition createUI (w : World) : World :=
  let '(h, t) := setInterval StatsRedraw 1000%float (timers w) in
  let a := app w in
  {| app :=
       {| isRunning := isRunning a; isPaused := isPaused a;
          intervalId := intervalId a; observer := observer a;
          isDarkMode := isDarkMode a; config := config a;
          ui := Some {| pauseBtn := Some (js "Pause") |};
          stats := stats a;
          statsInterval := Some h |};
     timers := t |}.

Definition setupEventHandling (page : Page) (a : AutoTypewriter)
  : AutoTypewriter :=
  match startBox (config a) with
  | Some box =>
      if negb (startDialogHidden page) then
        (* setupObserver *)
        {| isRunning := isRunning a; isPaused := isPaused a;
           intervalId := intervalId a; observer := Some box;
           isDarkMode := isDarkMode a; config := config a; ui := ui a;
           stats := stats a; statsInterval := statsInterval a |}
      else a
  | None => a
  end.

(** [init]: [None] when the configuration prompt never gets an accepted
    answer (the script stays blocked in it).  [compatible] is the result
    of [isCompatibleWebsite].  A failed step ends in [showError], an
    alert; [updateSpeedDisplay] writes to the overlay's text only. *)
Definition init (compatible : bool) (page : Page)
    (answers : list (option jsstring)) (w : World) : option World :=
  if negb compatible then Some w
  else
    let w := createUI w in
    match setupConfiguration page answers (app w) with
    | SetupThrows a => Some {| app := a; timers := timers w |}
    | SetupPrompting _ => None
    | SetupDone a _ =>
        Some {| app := setupEventHandling page a; timers := timers w |}
    end.

(** The state when the script is loaded: [new AutoTypewriter()], and no
    timer of the script yet. *)
Definition boot : World :=
  {| app := constructor;
     timers := {| active := ∅; nextHandle := 1%positive |} |}.

(** ** The event loop *)

(** What can happen once [init] has returned: a click on one of the
    overlay's buttons, a call of [window.stopAutoTypewriter] (it calls
    [stop], as the stop button does), or the browser running a timer. *)
Inductive Event :=
| ClickStart (now : Z)                      (* startTyping() *)
| ClickPause                                (* togglePause() *)
| ClickStop                                 (* stop() *)
| ClickClose                                (* closeUI() *)
| TimerFires (h : TimerHandle) (host : Host).

(** One turn of the event loop.  A timer runs its callback only while its
    handle is in the table of active timers; an exception that escapes an
    event handler is reported and the loop goes on. *)
Definition step (w : World) (e : Event) : World * list Dispatch :=
  match e with
  | ClickStart now => (startTyping now w, [])
  | ClickPause =>
      ({| app := stateOf (togglePause (app w)); timers := timers w |}, [])
  | ClickStop => (stop w, [])
  | ClickClose => (closeUI w, [])
  | TimerFires h host =>
      match active (timers w) !! h with
      | Some {| callback := TypingTick |} =>
          let '(a, out) := intervalCallback host (app w) in
          ({| app := a; timers := timers w |}, out)
      | Some {| callback := StatsRedraw |} => (w, [])   (* updateStats *)
      | None => (w, [])
      end
  end.

Fixpoint run (w : World) (es : list Event) : World * list Dispatch :=
  match es with
  | [] => (w, [])
  | e :: es =>
      let '(w1, out1) := step w e in
      let '(w2, out2) := run w1 es in
      (w2, out1 ++ out2)
  end.

Inductive reachable : World -> Prop :=
| reachable_init compatible page answers w :
    init compatible page answers boot = Some w -> reachable w
| reachable_step w e :
    reachable w -> reachable (fst (step w e)).

Definition isStart (e : Event) : bool :=
  match e with ClickStart _ => true | _ => false end.

(** A tick succeeds on a host page that shows a character in the target
    element and has a focused element. *)
Definition successful (c : Config) (host : Host) : Prop :=
  (exists target, targetElement c = Some target
                  /\ innerHTML host target <> [])
  /\ activeElement host <> None.

(** A tick finds no target character when the target element was never
    found, or its markup is the empty string. *)
Definition noTargetCharacter (c : Config) (host : Host) : Prop :=
  match targetElement c with
  | Some target => innerHTML host target = []
  | None => True
  end.

(** * Predicates and sample inputs of the statements *)

(** An answer is turned down when [parseInt] reads no integer from it, or
    reads one that is not in 1..10000. *)
Definition turnedDown (answer : option jsstring) : Prop :=
  parseInt (ToString answer) = None
  \/ exists n, parseInt (ToString answer) = Some n /\ (n <= 0 \/ 10000 < n).

(** The spec speaks of "non-numeric input".  Read by its words, an input
    is numeric when the whole of it is a decimal numeral: an optional sign,
    then one or more digits. *)
Definition spec_isNumeric (s : jsstring) : bool :=
  let digits := snd (stripSign s) in
  truthy digits && forallb isDecimalDigit digits.

(** The configuration a run of [setupConfiguration] ends with when it
    accepts the rate [r]. *)
Definition configured (page : Page) (r : Z) (a : AutoTypewriter)
  : AutoTypewriter :=
  set_config {| charsPerTenMins := r;
                msToWait := (600000 / num_of_Z r)%float;
                targetElement := textTodoChild page;
                startBox := startDialog page |} a.

(** A page with the typing widget (element 7) and no start dialog. *)
Definition page1 : Page :=
  {| startDialog := None; startDialogHidden := true; textTodoChild := Some 7%nat |}.

(** The configured rate and the tick interval derived from it. *)
Definition rate (w : World) : Z := charsPerTenMins (config (app w)).
Definition tickIntervalMs (w : World) : float := msToWait (config (app w)).

(** The world after [init] on a page with the typing widget, the user
    answering "600". *)
Definition world600 : World :=
  match init true page1 [Some (js "600")] boot with
  | Some w => w
  | None => boot
  end.

(** The decimal numeral of a rate, as the user types it into the prompt,
    and whether [init] accepts it with that rate. *)
Definition decimal (r : Z) : jsstring :=
  js (NilEmpty.string_of_uint (N.to_uint (Z.to_N r))).

Definition decimal_accepted (r : Z) : bool :=
  match init true page1 [Some (decimal r)] boot with
  | Some w => rate w =? r
  | None => false
  end.

(** Views of the host page at a tick: the target shows nothing; it shows
    "a" and nothing has the focus; it shows "a" and element 3 has the
    focus. *)
Definition hostEmpty : Host :=
  {| innerHTML := fun _ => []; activeElement := Some 3%nat; now := 2000 |}.
Definition hostNoFocus : Host :=
  {| innerHTML := fun _ => js "a"; activeElement := None; now := 2000 |}.
Definition hostA : Host :=
  {| innerHTML := fun _ => js "a"; activeElement := Some 3%nat; now := 2000 |}.

(** The session started from [world600] at time 1000. *)
Definition started600 : World := startTyping 1000 world600.

(** The count of characters typed in the session. *)
Definition typed (w : World) : Z := charactersTyped (stats (app w)).

(** One press of the pause button: the state [togglePause] leaves. *)
Definition pressPause (a : AutoTypewriter) : AutoTypewriter :=
  stateOf (togglePause a).

(** A session of three typed characters, then stopped. *)
Definition stopped600 : World :=
  fst (run world600
         [ClickStart 1000; TimerFires 2%positive hostA;
          TimerFires 2%positive hostA; TimerFires 2%positive hostA]).

(** The numeric code the claim asks for: 32 for a space, otherwise the
    code of the first character. *)
Definition codeOf (k : jsstring) (code : option N) : Prop :=
  (k = js " " -> code = Some 32%N)
  /\ (k <> js " " -> exists c rest, k = c :: rest /\ code = Some c).

(** A keypress with that code, no modifier key, bubbling and cancelable. *)
Definition plainKeypress (ev : KeyboardEvent) : Prop :=
  type ev = js "keypress"
  /\ codeOf (key ev) (keyCode ev)
  /\ altKey ev = false /\ ctrlKey ev = false
  /\ shiftKey ev = false /\ metaKey ev = false
  /\ bubbles ev = true /\ cancelable ev = true.

(** The event a tick on [hostA] dispatches. *)
Definition keypressA : KeyboardEvent :=
  {| type := js "keypress"; key := js "a"; keyCode := Some 97%N;
     altKey := false; ctrlKey := false; shiftKey := false; metaKey := false;
     bubbles := true; cancelable := true |}.

(** The target shows a space. *)
Definition hostSpace : Host :=
  {| innerHTML := fun _ => js " "; activeElement := Some 3%nat; now := 2000 |}.

(** No typing callback is scheduled. *)
Definition noTypingTimer (t : Timers) : Prop :=
  forall h x, active t !! h = Some x -> callback x = StatsRedraw.

(** The only typing callback ever scheduled is the one [intervalId]
    names, and there is none while the object is not running. *)
Definition timerInvariant (w : World) : Prop :=
  (forall h x, active (timers w) !! h = Some x -> callback x = TypingTick ->
               intervalId (app w) = Some h)
  /\ (isRunning (app w) = false -> intervalId (app w) = None).

(** Not running, with no typing callback scheduled. *)
Definition quiet (w : World) : Prop :=
  isRunning (app w) = false
  /\ intervalId (app w) = None
  /\ noTypingTimer (timers w).

(** ** Predicates of the further properties *)

Definition isTimerEvent (e : Event) : bool :=
  match e with TimerFires _ _ => true | _ => false end.

(** While the object names a timer in [intervalId], that timer is the
    scheduled typing callback, at the configured interval, and the object
    is running. *)
Definition sessionTimer (w : World) : Prop :=
  (isRunning (app w) = true -> exists h, intervalId (app w) = Some h)
  /\ forall h, intervalId (app w) = Some h ->
               isRunning (app w) = true
               /\ active (timers w) !! h
                  = Some {| callback := TypingTick;
                            delay := msToWait (config (app w)) |}.

(** The only redraw callback scheduled is the one [statsInterval] names. *)
Definition redrawTimerOwned (w : World) : Prop :=
  forall h x, active (timers w) !! h = Some x -> callback x = StatsRedraw ->
              statsInterval (app w) = Some h.

(** A page without the typing widget. *)
Definition pageNoWidget : Page :=
  {| startDialog := Some 4%nat; startDialogHidden := false;
     textTodoChild := None |}.

(** The world after [init] on that page: the overlay is there, the
    configuration failed. *)
Definition worldNoWidget : World :=
  match init true pageNoWidget [Some (js "600")] boot with
  | Some w => w
  | None => boot
  end.

(** [started600] after one typed character and a press on pause. *)
Definition paused600 : World :=
  fst (run started600 [TimerFires 2%positive hostA; ClickPause]).

(** While the overlay is there, its redraw timer is scheduled, every
    second; and no handle in use is the one the next [setInterval]
    returns. *)
Definition redrawTimerScheduled (w : World) : Prop :=
  (forall o, ui (app w) = Some o ->
     exists h, statsInterval (app w) = Some h
               /\ active (timers w) !! h
                  = Some {| callback := StatsRedraw; delay := 1000%float |})
  /\ (forall h, is_Some (active (timers w) !! h) ->
                (h < nextHandle (timers w))%positive).

(** ** [updateStats]: what the redraw callback writes to the overlay *)

(** [String(n)] for an integer [n]. *)
Definition numberToString (n : Z) : jsstring :=
  if n <? 0 then 45%N :: decimal (- n) else decimal n.

(** [s.padStart(2, '0')]. *)
Definition padStart2 (s : jsstring) : jsstring :=
  repeat 48%N (2 - length s) ++ s.

(** The text of the speed field: "0/min", or the rounding of a quotient
    followed by "/min" ([Math.round] is left as it is). *)
Inductive SpeedText :=
| ZeroPerMin
| RoundedPerMin (quotient : float).

Record StatsPanel := mkStatsPanel {
  statusText : jsstring;
  statusIndicatorClass : jsstring;
  startBtnDisabled : bool;
  stopBtnDisabled : bool;
  pauseBtnDisabled : bool;
  charsTypedText : jsstring;
  timeRunningText : jsstring;
  currentSpeedText : SpeedText
}.

(** The "mm:ss" text.  [Math.floor(elapsed / 60000)] is the floor
    quotient and [%] the remainder with the sign of the dividend (both
    exact on the integers a clock in milliseconds gives). *)
Definition clockText (elapsed : Z) : jsstring :=
  let minutes := elapsed / 60000 in
  let seconds := Z.rem elapsed 60000 / 1000 in
  padStart2 (numberToString minutes) ++ js ":"
    ++ padStart2 (numberToString seconds).

Inductive Redraw :=
| NoOverlay                    (* [if (!this.ui) return] *)
| RedrawThrows                 (* the pause button is not found *)
| Redrawn (p : StatsPanel).

Definition updateStats (now : Z) (a : AutoTypewriter) : Redraw :=
  match ui a with
  | None => NoOverlay
  | Some o =>
      match pauseBtn o with
      | None => RedrawThrows
      | Some _ =>
          let st := stats a in
          Redrawn
            {| statusText :=
                 if isRunning a
                 then if isPaused a then js "Paused" else js "Running"
                 else js "Stopped";
               statusIndicatorClass :=
                 if isRunning a
                 then if isPaused a then js "ui-status stopped"
                      else js "ui-status running"
                 else js "ui-status stopped";
               startBtnDisabled := isRunning a;
               stopBtnDisabled := negb (isRunning a);
               pauseBtnDisabled := negb (isRunning a);
               charsTypedText := numberToString (charactersTyped st);
               timeRunningText :=
                 match startTime st with
                 | Some t =>
                     if truthyNum (Some t) && isRunning a
                     then clockText (now - t)
                     else js "00:00"
                 | None => js "00:00"
                 end;
               currentSpeedText :=
                 match startTime st with
                 | Some t =>
                     if truthyNum (Some t) && isRunning a
                        && negb (isPaused a)
                     then
                       let elapsed := now - t in
                       if 0 <? elapsed
                       then RoundedPerMin
                              (num_of_Z (charactersTyped st)
                               / (num_of_Z elapsed / 60000))%float
                       else ZeroPerMin
                     else ZeroPerMin
                 | None => ZeroPerMin
                 end |}
      end
  end.

(** Every overlay the object holds has its pause button. *)
Definition overlayIntact (w : World) : Prop :=
  forall o, ui (app w) = Some o -> exists label, pauseBtn o = Some label.

Definition twoDigits (k : Z) : bool :=
  (length (padStart2 (numberToString k)) =? 2)%nat.

(** ** Minimizing: [toggleMinimize], [restoreFromMinimized] *)

(** What these two methods read and write of the overlay: whether it has
    the class [ui-minimized], the label of the minimize button, and how
    many once-only click listeners running [restoreFromMinimized] are
    registered on it. *)
Record Frame := mkFrame {
  minimized : bool;
  minimizeBtnText : jsstring;
  restoreListeners : nat
}.

(** The element a click lands on: one of the three header buttons (of
    class [ui-minimize], [ui-close], [ui-theme-toggle]) or any other
    part of the overlay. *)
Inductive ClickTarget :=
| MinimizeButton
| CloseButton
| ThemeButton
| OtherPart.

(** The label the source gives the minimize button while the overlay is
    not minimized: the three code units of its string literal. *)
Definition minusSign : jsstring := [226%N; 710%N; 8217%N].

Definition toggleMinimize (f : Frame) : Frame :=
  let m := negb (minimized f) in
  {| minimized := m;
     minimizeBtnText := if m then js "+" else minusSign;
     restoreListeners := if m then S (restoreListeners f)
                         else restoreListeners f |}.

Definition restoreFromMinimized (target : ClickTarget) (f : Frame) : Frame :=
  match target with
  | OtherPart =>
      {| minimized := false;
         minimizeBtnText := minusSign;
         restoreListeners := restoreListeners f |}
  | _ => f
  end.

(** A click on the overlay.  The button's own [onclick] runs first; the
    click then bubbles to the overlay, where every once-only listener
    registered by then runs and is removed. *)
Definition clickOverlay (target : ClickTarget) (f : Frame) : Frame :=
  let f := match target with
           | MinimizeButton => toggleMinimize f
           | _ => f
           end in
  Nat.iter (restoreListeners f) (restoreFromMinimized target)
    {| minimized := minimized f;
       minimizeBtnText := minimizeBtnText f;
       restoreListeners := 0 |}.

(** The overlay as [createUI] builds it. *)
Definition frame0 : Frame :=
  {| minimized := false; minimizeBtnText := minusSign; restoreListeners := 0 |}.

Definition clicks (targets : list ClickTarget) (f : Frame) : Frame :=
  fold_left (fun f t => clickOverlay t f) targets f.

Definition isMinimizeButton (t : ClickTarget) : bool :=
  match t with MinimizeButton => true | _ => false end.

(** ** Dragging: [setupDrag] *)

(** What the handlers test of the element under the pointer. *)
Record PressTarget := mkPressTarget {
  withinHeader : bool;        (* it is the header, or inside it *)
  tagIsButton : bool;         (* tagName === 'BUTTON' *)
  hasCloseClass : bool;
  hasMinimizeClass : bool
}.

(** The variables of the closure, and the two style properties written.
    Pointer coordinates are in whole pixels. *)
Record DragState := mkDragState {
  isDragging : bool;
  startX : Z;
  startY : Z;
  currentX : Z;
  currentY : Z;
  cursor : option jsstring;
  transform : option (Z * Z)       (* translate3d(x px, y px, 0) *)
}.

Definition dragState0 : DragState :=
  {| isDragging := false; startX := 0; startY := 0;
     currentX := 0; currentY := 0; cursor := None; transform := None |}.

Definition dragStart (target : PressTarget) (clientX clientY : Z)
    (d : DragState) : DragState :=
  if withinHeader target then
    if tagIsButton target || hasCloseClass target || hasMinimizeClass target
    then d
    else {| isDragging := true;
            startX := clientX - currentX d;
            startY := clientY - currentY d;
            currentX := currentX d;
            currentY := currentY d;
            cursor := Some (js "grabbing");
            transform := transform d |}
  else d.

Definition dragEnd (d : DragState) : DragState :=
  {| isDragging := false;
     startX := startX d; startY := startY d;
     currentX := currentX d; currentY := currentY d;
     cursor := Some (js "default");
     transform := transform d |}.

Definition drag (clientX clientY : Z) (d : DragState) : DragState :=
  if negb (isDragging d) then d
  else {| isDragging := isDragging d;
          startX := startX d; startY := startY d;
          currentX := clientX - startX d;
          currentY := clientY - startY d;
          cursor := cursor d;
          transform := Some (clientX - startX d, clientY - startY d) |}.

(** The listeners [setupDrag] registers, for the mouse and for touch. *)
Inductive PointerEvent :=
| MouseDown (target : PressTarget) (clientX clientY : Z)
| MouseMove (clientX clientY : Z)
| MouseUp
| TouchStart (target : PressTarget) (clientX clientY : Z)
| TouchMove (clientX clientY : Z)
| TouchEnd.

Definition pointer (d : DragState) (e : PointerEvent) : DragState :=
  match e with
  | MouseDown target x y => dragStart target x y d
  | MouseMove x y => drag x y d
  | MouseUp => dragEnd d
  | TouchStart target x y => dragStart target x y d
  | TouchMove x y => if isDragging d then drag x y d else d
  | TouchEnd => dragEnd d
  end.

Definition isMove (e : PointerEvent) : bool :=
  match e with MouseMove _ _ | TouchMove _ _ => true | _ => false end.

(** Where the pointer is after a sequence of events, having been at [p]. *)
Fixpoint lastPosition (es : list PointerEvent) (p : Z * Z) : Z * Z :=
  match es with
  | [] => p
  | MouseMove x y :: es => lastPosition es (x, y)
  | TouchMove x y :: es => lastPosition es (x, y)
  | _ :: es => lastPosition es p
  end.

(** A press that starts a drag: on the header, not on a button. *)
Definition startsDrag (target : PressTarget) : bool :=
  withinHeader target
  && negb (tagIsButton target || hasCloseClass target
           || hasMinimizeClass target).

(** A part of the header that is not a button. *)
Definition titleBar : PressTarget :=
  {| withinHeader := true; tagIsButton := false;
     hasCloseClass := false; hasMinimizeClass := false |}.

(** ** [isCompatibleWebsite] *)

(** [toLowerCase] on the characters an address is written in (the
    location's href and hostname are ASCII): A-Z become a-z. *)
Definition toLowerCase (s : jsstring) : jsstring :=
  map (fun c => if ((65 <=? c) && (c <=? 90))%N then (c + 32)%N else c) s.

Fixpoint startsWith (s prefix : jsstring) {struct prefix} : bool :=
  match prefix, s with
  | [], _ => true
  | p :: prefix, c :: s => (c =? p)%N && startsWith s prefix
  | _ :: _, [] => false
  end.

(** [s.includes(needle)]. *)
Fixpoint includes (s needle : jsstring) : bool :=
  startsWith s needle
  || match s with
     | [] => false
     | _ :: rest => includes rest needle
     end.

Definition isCompatibleWebsite (href hostname : jsstring) : bool :=
  let currentUrl := toLowerCase href in
  let hostname := toLowerCase hostname in
  if includes hostname (js "typewriter.at")
     || includes currentUrl (js "typewriter.at")
  then true
  else false.

(** * Properties *)

(** ** [parseInt] on sample answers *)

Example parseInt_600 : parseInt (js "600") = Some 600.
Proof. reflexivity. Qed.
Example parseInt_neg : parseInt (js "  -42px") = Some (-42).
Proof. reflexivity. Qed.
Example parseInt_hex : parseInt (js "0x1F") = Some 31.
Proof. reflexivity. Qed.
Example parseInt_words : parseInt (js "fast") = None.
Proof. reflexivity. Qed.
Example parseInt_null : parseInt (ToString None) = None.
Proof. reflexivity. Qed.

(** ** The configuration prompt *)

Lemma askAgain_spec (c : option Z) :
  askAgain c = true <->
  c = None \/ exists n, c = Some n /\ (n <= 0 \/ 10000 < n).
Proof.
  destruct c as [n|]; simpl.
  - rewrite orb_true_iff, Z.leb_le, Z.gtb_lt. split.
    + intros H. right. exists n. split; [reflexivity | lia].
    + intros [H | (m & Hm & H)]; [discriminate | injection Hm as ->; lia].
  - split; [intros _; now left | reflexivity].
Qed.

Lemma askAgain_false (n : Z) :
  askAgain (Some n) = false <-> 1 <= n <= 10000.
Proof.
  simpl. rewrite orb_false_iff, Z.leb_gt, Z.gtb_ltb, Z.ltb_ge. lia.
Qed.

Lemma promptLoop_turnedDown (answer : option jsstring) rest :
  turnedDown answer -> promptLoop (answer :: rest) = promptLoop rest.
Proof.
  intros [H | (n & H & Hn)]; simpl; rewrite H; [reflexivity |].
  replace ((n <=? 0) || (n >? 10000)) with true; [reflexivity |].
  symmetry. apply (proj2 (askAgain_spec (Some n))). right. now exists n.
Qed.

Lemma promptLoop_accepts (answer : option jsstring) n rest :
  parseInt (ToString answer) = Some n -> 1 <= n <= 10000 ->
  promptLoop (answer :: rest) = Some (n, rest).
Proof.
  intros H Hn. simpl. rewrite H.
  apply askAgain_false in Hn. simpl in Hn. now rewrite Hn.
Qed.

Lemma promptLoop_all_turnedDown bad :
  Forall turnedDown bad -> promptLoop bad = None.
Proof.
  induction 1 as [| x bad Hx _ IH]; [reflexivity |].
  now rewrite promptLoop_turnedDown.
Qed.

Lemma promptLoop_skips bad rest :
  Forall turnedDown bad -> promptLoop (bad ++ rest) = promptLoop rest.
Proof.
  induction 1 as [| x bad Hx _ IH]; [reflexivity |].
  rewrite <- app_comm_cons. now rewrite promptLoop_turnedDown.
Qed.

(** Whatever the loop accepts is in range, and was read from one of the
    answers. *)
Lemma promptLoop_in_range answers n rest :
  promptLoop answers = Some (n, rest) -> 1 <= n <= 10000.
Proof.
  induction answers as [| x answers IH]; simpl; [discriminate |].
  destruct (parseInt (ToString x)) as [m|]; [| exact IH].
  destruct ((m <=? 0) || (m >? 10000)) eqn:E; [exact IH |].
  intros H. injection H as -> _. now apply askAgain_false.
Qed.

(** C2, as the code has it: with the target element on the page,
    [setupConfiguration] turns down every answer from which [parseInt]
    reads no integer (NaN), and every answer read as r <= 0 or
    r > 10000; while all answers are of that kind it keeps asking.  The
    first answer read as a rate in 1..10000 is accepted: the rate is
    stored and the tick interval 600000 / r derived from it. *)
Theorem setupConfiguration_first_valid
    (page : Page) (a : AutoTypewriter) (bad : list (option jsstring)) :
  textTodoChild page <> None ->
  Forall turnedDown bad ->
  (exists a', setupConfiguration page bad a = SetupPrompting a')
  /\ forall good r rest,
       parseInt (ToString good) = Some r -> 1 <= r <= 10000 ->
       setupConfiguration page (bad ++ good :: rest) a
       = SetupDone (configured page r a) rest.
Proof.
  intros Htarget Hbad. unfold setupConfiguration. simpl.
  destruct (textTodoChild page) as [target|] eqn:E; [| congruence].
  split.
  - rewrite (promptLoop_all_turnedDown _ Hbad). eexists. reflexivity.
  - intros good r rest Hparse Hr.
    rewrite (promptLoop_skips _ _ Hbad).
    rewrite (promptLoop_accepts _ _ _ Hparse Hr).
    unfold configured. now rewrite E.
Qed.

Lemma setupConfiguration_first_valid_witness :
  (exists a', setupConfiguration page1
                [Some (js "fast"); None; Some (js "0"); Some (js "20000")]
                constructor = SetupPrompting a')
  /\ forall good r rest,
       parseInt (ToString good) = Some r -> 1 <= r <= 10000 ->
       setupConfiguration page1
         ([Some (js "fast"); None; Some (js "0"); Some (js "20000")]
            ++ good :: rest) constructor
       = SetupDone (configured page1 r constructor) rest.
Proof.
  apply setupConfiguration_first_valid.
  - discriminate.
  - constructor; [left; reflexivity |].
    constructor; [left; reflexivity |].
    constructor; [right; exists 0; split; [reflexivity | lia] |].
    constructor; [right; exists 20000; split; [reflexivity | lia] |].
    constructor.
Defined.

(** C2 as stated fails: the answer "600abc" is not numeric, and
    [setupConfiguration] accepts it, with the rate 600. *)
Lemma setupConfiguration_accepts_600abc :
  spec_isNumeric (js "600abc") = false
  /\ setupConfiguration page1 [Some (js "600abc")] constructor
     = SetupDone (configured page1 600 constructor) [].
Proof. split; reflexivity. Qed.

(** Every numeric answer is read as an integer by [parseInt]; so an
    answer turned down as NaN is not numeric.  The answers that are not
    numeric and yet are read as an integer are the ones C2 misses. *)
Lemma isDecimalDigit_cases (c : N) :
  isDecimalDigit c = true ->
  (c = 48 \/ c = 49 \/ c = 50 \/ c = 51 \/ c = 52 \/ c = 53 \/ c = 54
   \/ c = 55 \/ c = 56 \/ c = 57)%N.
Proof.
  unfold isDecimalDigit. rewrite andb_true_iff, !N.leb_le. lia.
Qed.

Ltac digit_cases H :=
  apply isDecimalDigit_cases in H;
  repeat (destruct H as [H | H]); subst.

Lemma readDigits_seen (R : Z) (s : jsstring) :
  forall acc, exists v, readDigits R s true acc = Some v.
Proof.
  induction s as [| c s IH]; intros acc; simpl; [now exists acc |].
  destruct (radixDigit R c) as [d|]; [apply IH | now exists acc].
Qed.

Lemma decimal_digits_parse (digits : jsstring) :
  truthy digits = true ->
  forallb isDecimalDigit digits = true ->
  stripPrefix digits = (10, digits)
  /\ exists v, readDigits 10 digits false 0 = Some v.
Proof.
  destruct digits as [| c0 rest]; [discriminate |]. intros _ Hall.
  simpl in Hall. apply andb_true_iff in Hall. destruct Hall as [H0 Hrest].
  split.
  - destruct rest as [| c1 rest]; [reflexivity |].
    simpl in Hrest. apply andb_true_iff in Hrest. destruct Hrest as [H1 _].
    unfold stripPrefix.
    replace ((c1 =? 120) || (c1 =? 88))%N with false
      by (digit_cases H1; reflexivity).
    now rewrite andb_false_r.
  - simpl.
    assert (Hd : exists d, radixDigit 10 c0 = Some d)
      by (digit_cases H0; eexists; reflexivity).
    destruct Hd as [d ->]. apply readDigits_seen.
Qed.

Lemma numeric_is_parsed (s : jsstring) :
  spec_isNumeric s = true -> exists n, parseInt s = Some n.
Proof.
  unfold spec_isNumeric. intros H. apply andb_true_iff in H.
  destruct H as [Hne Hall].
  assert (Htrim : trimStart s = s).
  { destruct s as [| c rest]; [reflexivity |]. simpl in *.
    destruct (c =? 45)%N eqn:E45; [apply N.eqb_eq in E45; now subst |].
    destruct (c =? 43)%N eqn:E43; [apply N.eqb_eq in E43; now subst |].
    simpl in Hall. apply andb_true_iff in Hall. destruct Hall as [Hc _].
    digit_cases Hc; reflexivity. }
  unfold parseInt. rewrite Htrim.
  destruct (stripSign s) as [sign digits]. simpl in *.
  destruct (decimal_digits_parse digits Hne Hall) as [-> [v ->]].
  now exists (sign * v).
Qed.

Lemma NaN_is_not_numeric (s : jsstring) :
  parseInt s = None -> spec_isNumeric s = false.
Proof.
  intros H. destruct (spec_isNumeric s) eqn:E; [| reflexivity].
  destruct (numeric_is_parsed s E) as [n Hn]. congruence.
Qed.

Example scenario_20000_rejected_10000_accepted :
  setupConfiguration page1 [Some (js "20000"); Some (js "10000")] constructor
  = SetupDone (configured page1 10000 constructor) [].
Proof. reflexivity. Qed.

(** ** The tick interval *)

Lemma step_config (w : World) (e : Event) :
  config (app (fst (step w e))) = config (app w).
Proof.
  destruct e as [t | | | | h host]; simpl.
  - unfold startTyping. destruct (isRunning (app w)); reflexivity.
  - unfold togglePause. destruct (isRunning (app w)); simpl; [| reflexivity].
    destruct (ui (app w)) as [o|]; simpl; [| reflexivity].
    destruct (pauseBtn o); reflexivity.
  - reflexivity.
  - reflexivity.
  - destruct (active (timers w) !! h) as [[[|] d]|]; try reflexivity.
    unfold intervalCallback, typeNextCharacter, typeNextCharacter_try.
    destruct (negb (isPaused (app w))); [| reflexivity].
    destruct (targetElement (config (app w))) as [target|]; [| reflexivity].
    destruct (negb (truthy (innerHTML host target))); [reflexivity |].
    destruct (activeElement host); reflexivity.
Qed.

Lemma init_interval compatible page answers w :
  init compatible page answers boot = Some w ->
  0 < rate w ->
  1 <= rate w <= 10000
  /\ tickIntervalMs w = (600000 / num_of_Z (rate w))%float.
Proof.
  unfold init, rate, tickIntervalMs.
  destruct compatible; simpl.
  2:{ intros H. injection H as <-. simpl. lia. }
  unfold setupConfiguration. simpl.
  destruct (textTodoChild page) as [target|].
  2:{ intros H. injection H as <-. simpl. lia. }
  destruct (promptLoop answers) as [[n rest]|] eqn:E; [| discriminate].
  intros H _. injection H as <-.
  apply promptLoop_in_range in E.
  unfold setupEventHandling. simpl.
  destruct (startDialog page); [destruct (negb (startDialogHidden page)) |];
    simpl; auto.
Qed.

(** C1: in every state the program can reach, whenever the configured
    rate is positive it lies in 1..10000 and the tick interval is the
    binary64 quotient 600000 / rate. *)
Theorem tickInterval_is_600000_over_rate (w : World) :
  reachable w ->
  0 < rate w ->
  1 <= rate w <= 10000
  /\ tickIntervalMs w = (600000 / num_of_Z (rate w))%float.
Proof.
  induction 1 as [compatible page answers w Hinit | w e _ IH].
  - now apply init_interval with compatible page answers.
  - unfold rate, tickIntervalMs in *. rewrite step_config. exact IH.
Qed.

Lemma init_600 : init true page1 [Some (js "600")] boot = Some world600.
Proof. reflexivity. Qed.

Lemma reachable_world600 : reachable world600.
Proof. eapply reachable_init. exact init_600. Defined.

Lemma tickInterval_is_600000_over_rate_witness :
  1 <= rate world600 <= 10000
  /\ tickIntervalMs world600 = (600000 / num_of_Z (rate world600))%float.
Proof.
  apply tickInterval_is_600000_over_rate.
  - exact reachable_world600.
  - reflexivity.
Defined.

Example scenario_configure_600 :
  rate world600 = 600 /\ tickIntervalMs world600 = 1000%float.
Proof. split; reflexivity. Qed.

Lemma decimal_accepted_upto :
  forallb decimal_accepted (map Z.of_nat (seq 1 (Z.to_nat 10000))) = true.
Proof. vm_compute. reflexivity. Qed.

Lemma every_rate_configurable (r : Z) :
  1 <= r <= 10000 ->
  exists w, reachable w /\ rate w = r
            /\ tickIntervalMs w = (600000 / num_of_Z r)%float.
Proof.
  intros Hr.
  assert (Hacc : decimal_accepted r = true).
  { pose proof decimal_accepted_upto as H.
    rewrite forallb_forall in H. apply H.
    apply in_map_iff. exists (Z.to_nat r). split; [lia |].
    apply in_seq. lia. }
  unfold decimal_accepted in Hacc.
  destruct (init true page1 [Some (decimal r)] boot) as [w|] eqn:E;
    [| discriminate].
  apply Z.eqb_eq in Hacc.
  assert (Hw : reachable w) by (eapply reachable_init; exact E).
  exists w. split; [exact Hw |]. split; [exact Hacc |].
  rewrite <- Hacc. apply (init_interval _ _ _ _ E). lia.
Qed.

(** ** The tick *)

Lemma typeNextCharacter_success (host : Host) (a : AutoTypewriter) :
  successful (config a) host ->
  exists el ev,
    typeNextCharacter host a
    = (set_stats {| charactersTyped := charactersTyped (stats a) + 1;
                    startTime := startTime (stats a);
                    lastTypedTime := Some (now host) |} a,
       [(el, ev)]).
Proof.
  intros [(target & Ht & Hhtml) Hfocus].
  unfold typeNextCharacter, typeNextCharacter_try. rewrite Ht.
  destruct (innerHTML host target) as [| c rest] eqn:E; [congruence |].
  simpl. destruct (activeElement host) as [el|]; [| congruence].
  eexists. eexists. reflexivity.
Qed.

(** C6: a tick that finds no target character (the target element is
    missing, or its markup is empty) returns normally, leaves the whole
    object unchanged (so charactersTyped and isRunning too), and
    dispatches nothing; the timer that ran it stays scheduled. *)
Theorem tick_without_target_character
    (host : Host) (a : AutoTypewriter) (t : Timers) (h : TimerHandle) :
  noTargetCharacter (config a) host ->
  typeNextCharacter host a = (a, [])
  /\ intervalCallback host a = (a, [])
  /\ step {| app := a; timers := t |} (TimerFires h host)
     = ({| app := a; timers := t |}, []).
Proof.
  intros Hno. unfold noTargetCharacter in Hno.
  assert (H1 : typeNextCharacter host a = (a, [])).
  { unfold typeNextCharacter, typeNextCharacter_try.
    destruct (targetElement (config a)) as [target|]; [| reflexivity].
    now rewrite Hno. }
  assert (H2 : intervalCallback host a = (a, [])).
  { unfold intervalCallback. destruct (negb (isPaused a)); [exact H1 | reflexivity]. }
  repeat split; try assumption.
  simpl. destruct (active t !! h) as [[[|] d]|]; try reflexivity.
  now rewrite H2.
Qed.

(** C10: a tick that finds a target character but no focused element
    returns normally, leaves the whole object unchanged (charactersTyped,
    lastTypedTime and isRunning included), and dispatches nothing. *)
Theorem tick_without_focus
    (host : Host) (a : AutoTypewriter) (t : Timers) (h : TimerHandle)
    (target : Element) :
  targetElement (config a) = Some target ->
  innerHTML host target <> [] ->
  activeElement host = None ->
  typeNextCharacter host a = (a, [])
  /\ intervalCallback host a = (a, [])
  /\ step {| app := a; timers := t |} (TimerFires h host)
     = ({| app := a; timers := t |}, []).
Proof.
  intros Ht Hhtml Hfocus.
  assert (H1 : typeNextCharacter host a = (a, [])).
  { unfold typeNextCharacter, typeNextCharacter_try. rewrite Ht, Hfocus.
    destruct (innerHTML host target); [congruence | reflexivity]. }
  assert (H2 : intervalCallback host a = (a, [])).
  { unfold intervalCallback. destruct (negb (isPaused a)); [exact H1 | reflexivity]. }
  repeat split; try assumption.
  simpl. destruct (active t !! h) as [[[|] d]|]; try reflexivity.
  now rewrite H2.
Qed.

Lemma tick_without_target_character_witness :
  typeNextCharacter hostEmpty (app started600) = (app started600, [])
  /\ intervalCallback hostEmpty (app started600) = (app started600, [])
  /\ step {| app := app started600; timers := timers started600 |}
          (TimerFires 2%positive hostEmpty)
     = ({| app := app started600; timers := timers started600 |}, []).
Proof.
  apply (tick_without_target_character hostEmpty (app started600)
           (timers started600) 2%positive).
  reflexivity.
Defined.

Lemma tick_without_focus_witness :
  typeNextCharacter hostNoFocus (app started600) = (app started600, [])
  /\ intervalCallback hostNoFocus (app started600) = (app started600, [])
  /\ step {| app := app started600; timers := timers started600 |}
          (TimerFires 2%positive hostNoFocus)
     = ({| app := app started600; timers := timers started600 |}, []).
Proof.
  apply (tick_without_focus hostNoFocus (app started600)
           (timers started600) 2%positive 7%nat).
  - reflexivity.
  - discriminate.
  - reflexivity.
Defined.

Example started600_timer :
  intervalId (app started600) = Some 2%positive
  /\ active (timers started600) !! 2%positive
     = Some {| callback := TypingTick; delay := 1000%float |}.
Proof. split; reflexivity. Qed.

(** ** Counting successful ticks *)

Lemma intervalCallback_success (host : Host) (a : AutoTypewriter) :
  isPaused a = false ->
  successful (config a) host ->
  exists el ev,
    intervalCallback host a
    = (set_stats {| charactersTyped := charactersTyped (stats a) + 1;
                    startTime := startTime (stats a);
                    lastTypedTime := Some (now host) |} a,
       [(el, ev)]).
Proof.
  intros Hp Hs. unfold intervalCallback. rewrite Hp. simpl.
  now apply typeNextCharacter_success.
Qed.

Lemma run_successful_ticks (hosts : list Host) :
  forall (w : World) (h : TimerHandle) (d : float),
    active (timers w) !! h = Some {| callback := TypingTick; delay := d |} ->
    isPaused (app w) = false ->
    Forall (successful (config (app w))) hosts ->
    let r := run w (map (TimerFires h) hosts) in
    typed (fst r) = typed w + Z.of_nat (length hosts)
    /\ isRunning (app (fst r)) = isRunning (app w)
    /\ length (snd r) = length hosts.
Proof.
  induction hosts as [| host hosts IH]; intros w h d Hh Hp Hs; simpl.
  - unfold typed. repeat split; lia.
  - inversion Hs as [| ? ? Hhost Hrest]; subst.
    rewrite Hh.
    destruct (intervalCallback_success host (app w) Hp Hhost)
      as (el & ev & E).
    rewrite E.
    set (w1 := {| app := set_stats _ (app w); timers := timers w |}).
    specialize (IH w1 h d Hh Hp Hrest). simpl in IH.
    destruct (run w1 (map (TimerFires h) hosts)) as [w2 out2].
    simpl in *. destruct IH as (IH1 & IH2 & IH3).
    unfold typed in *. simpl in IH1.
    repeat split; [lia | exact IH2 | now rewrite IH3].
Qed.

(** C5: start a session from a state that is not running, and let the
    timer it scheduled fire N times, each time on a page that shows a
    target character and has a focused element.  Then charactersTyped is
    N, isRunning is still true, [getStatus] reports both, and N
    keystroke events were dispatched. *)
Theorem charactersTyped_after_successful_ticks
    (w : World) (t0 : Z) (hosts : list Host) :
  isRunning (app w) = false ->
  Forall (successful (config (app w))) hosts ->
  exists h,
    intervalId (app (startTyping t0 w)) = Some h
    /\ let r := run (startTyping t0 w) (map (TimerFires h) hosts) in
       typed (fst r) = Z.of_nat (length hosts)
       /\ isRunning (app (fst r)) = true
       /\ length (snd r) = length hosts
       /\ forall now,
            Status.charactersTyped (getStatus now (app (fst r)))
            = Z.of_nat (length hosts)
            /\ Status.isRunning (getStatus now (app (fst r))) = true.
Proof.
  intros Hidle Hs.
  exists (nextHandle (timers w)).
  unfold startTyping. rewrite Hidle. simpl.
  set (w1 := {| app := _; timers := _ |}).
  assert (Hh : active (timers w1) !! nextHandle (timers w)
               = Some {| callback := TypingTick;
                         delay := msToWait (config (app w)) |}).
  { simpl. apply lookup_insert_eq. }
  destruct (run_successful_ticks hosts w1 _ _ Hh eq_refl Hs)
    as (H1 & H2 & H3).
  split; [reflexivity |].
  unfold typed in *. simpl in H1, H2.
  repeat split; try assumption; lia.
Qed.

Lemma charactersTyped_after_successful_ticks_witness :
  exists h,
    intervalId (app (startTyping 1000 world600)) = Some h
    /\ let r := run (startTyping 1000 world600)
                    (map (TimerFires h) [hostA; hostA; hostA]) in
       typed (fst r) = Z.of_nat (length [hostA; hostA; hostA])
       /\ isRunning (app (fst r)) = true
       /\ length (snd r) = length [hostA; hostA; hostA]
       /\ forall now,
            Status.charactersTyped (getStatus now (app (fst r)))
            = Z.of_nat (length [hostA; hostA; hostA])
            /\ Status.isRunning (getStatus now (app (fst r))) = true.
Proof.
  apply (charactersTyped_after_successful_ticks world600 1000
           [hostA; hostA; hostA]).
  - reflexivity.
  - assert (Hs : successful (config (app world600)) hostA).
    { split; [exists 7%nat; split; [reflexivity | discriminate] | discriminate]. }
    constructor; [exact Hs |]. constructor; [exact Hs |].
    constructor; [exact Hs |]. constructor.
Defined.

Example scenario_three_ticks :
  let w := fst (run world600
                  [ClickStart 1000; TimerFires 2%positive hostA;
                   TimerFires 2%positive hostA; TimerFires 2%positive hostA]) in
  Status.charactersTyped (getStatus 5000 (app w)) = 3
  /\ Status.isRunning (getStatus 5000 (app w)) = true
  /\ Status.timeRunning (getStatus 5000 (app w)) = 4000.
Proof. vm_compute. repeat split; reflexivity. Qed.

(** ** Starting *)

(** C4: a second [startTyping] right after a first one changes nothing.
    In a state that is already running [startTyping] changes nothing;
    otherwise it sets isRunning, clears isPaused, resets charactersTyped
    to 0 and startTime to the current time, and schedules the typing
    callback with the configured interval msToWait, keeping its handle
    in intervalId. *)
Theorem startTyping_idempotent (w : World) (t1 t2 : Z) :
  startTyping t2 (startTyping t1 w) = startTyping t1 w
  /\ (if isRunning (app w) then startTyping t1 w = w
      else
        let w' := startTyping t1 w in
        isRunning (app w') = true
        /\ isPaused (app w') = false
        /\ charactersTyped (stats (app w')) = 0
        /\ startTime (stats (app w')) = Some t1
        /\ intervalId (app w') = Some (nextHandle (timers w))
        /\ active (timers w')
           = <[nextHandle (timers w) :=
                 {| callback := TypingTick;
                    delay := msToWait (config (app w)) |}]> (active (timers w))
        /\ config (app w') = config (app w)).
Proof.
  split.
  - unfold startTyping at 1.
    assert (H : isRunning (app (startTyping t1 w)) = true).
    { unfold startTyping. destruct (isRunning (app w)) eqn:E; [exact E | reflexivity]. }
    now rewrite H.
  - unfold startTyping. destruct (isRunning (app w)); [reflexivity |].
    simpl. repeat split.
Qed.

(** ** Pausing *)

Lemma pressPause_frame (a : AutoTypewriter) :
  isRunning (pressPause a) = isRunning a
  /\ stats (pressPause a) = stats a
  /\ config (pressPause a) = config a
  /\ intervalId (pressPause a) = intervalId a
  /\ isPaused (pressPause a)
     = (if isRunning a then negb (isPaused a) else isPaused a).
Proof.
  unfold pressPause, togglePause.
  destruct (isRunning a) eqn:E; simpl; [| now rewrite E].
  destruct (ui a) as [o|]; simpl; [| now rewrite E].
  destruct (pauseBtn o); simpl; now rewrite E.
Qed.

Lemma togglePause_idle (a : AutoTypewriter) :
  isRunning a = false -> togglePause a = Normal a.
Proof. intros H. unfold togglePause. now rewrite H. Qed.

(** C7: while not running, [togglePause] returns at once and leaves the
    object as it is.  While running, each call flips isPaused, so after
    n calls isPaused is the initial value flipped n times; isRunning and
    the statistics (charactersTyped among them) never change. *)
Theorem togglePause_alternates (a : AutoTypewriter) (n : nat) :
  let a' := Nat.iter n pressPause a in
  (if isRunning a
   then isPaused a' = xorb (Nat.odd n) (isPaused a)
        /\ isPaused (pressPause a') = negb (isPaused a')
   else togglePause a = Normal a /\ a' = a)
  /\ isRunning a' = isRunning a
  /\ charactersTyped (stats a') = charactersTyped (stats a)
  /\ stats a' = stats a.
Proof.
  induction n as [| n IH]; cbn zeta.
  - simpl. destruct (isRunning a) eqn:E.
    + repeat split; try now destruct (isPaused a).
      destruct (pressPause_frame a) as (_ & _ & _ & _ & H).
      now rewrite H, E.
    + repeat split. now apply togglePause_idle.
  - cbn zeta in IH. rewrite Nat.odd_succ, <- Nat.negb_odd.
    simpl Nat.iter.
    set (b := Nat.iter n pressPause a) in *.
    destruct (pressPause_frame b) as (Hr & Hs & _ & _ & Hp).
    destruct IH as (IH1 & IH2 & IH3 & IH4).
    destruct (isRunning a) eqn:E.
    + destruct IH1 as [IH1 _]. rewrite IH2 in Hp.
      repeat split; try congruence.
      * rewrite Hp, IH1. now destruct (Nat.odd n), (isPaused a).
      * destruct (pressPause_frame (pressPause b)) as (_ & _ & _ & _ & H).
        rewrite H, Hr, IH2. reflexivity.
    + destruct IH1 as [IH1 IH1']. repeat split; try congruence.
      rewrite IH1'. unfold pressPause. now rewrite IH1.
Qed.

Example scenario_pause_five_periods :
  let paused := fst (run world600
                       [ClickStart 1000; TimerFires 2%positive hostA;
                        ClickPause;
                        TimerFires 2%positive hostA; TimerFires 2%positive hostA;
                        TimerFires 2%positive hostA; TimerFires 2%positive hostA;
                        TimerFires 2%positive hostA]) in
  let resumed := fst (run paused [ClickPause; TimerFires 2%positive hostA]) in
  typed paused = 1 /\ isPaused (app paused) = true
  /\ typed resumed = 2 /\ isPaused (app resumed) = false.
Proof. vm_compute. repeat split; reflexivity. Qed.

(** ** Stopping *)

(** C9: [stop] leaves the statistics as they are.  After it, [getStatus]
    reports isRunning false, the character count the session ended
    with, and (a session having been started at a time t other than 0)
    timeRunning = now - t, which grows with the clock. *)
Theorem stop_keeps_stats (w : World) (t now1 now2 : Z) :
  startTime (stats (app w)) = Some t ->
  t <> 0 ->
  now1 < now2 ->
  stats (app (stop w)) = stats (app w)
  /\ isRunning (app (stop w)) = false
  /\ Status.isRunning (getStatus now1 (app (stop w))) = false
  /\ Status.charactersTyped (getStatus now1 (app (stop w)))
     = charactersTyped (stats (app w))
  /\ Status.timeRunning (getStatus now1 (app (stop w))) = now1 - t
  /\ Status.timeRunning (getStatus now1 (app (stop w)))
     < Status.timeRunning (getStatus now2 (app (stop w))).
Proof.
  intros Ht Hnz Hlt. unfold getStatus, stop. simpl. rewrite Ht. simpl.
  destruct (t =? 0) eqn:E; [apply Z.eqb_eq in E; contradiction |].
  simpl. repeat split; lia.
Qed.

Lemma stop_keeps_stats_witness :
  stats (app (stop stopped600)) = stats (app stopped600)
  /\ isRunning (app (stop stopped600)) = false
  /\ Status.isRunning (getStatus 5000 (app (stop stopped600))) = false
  /\ Status.charactersTyped (getStatus 5000 (app (stop stopped600)))
     = charactersTyped (stats (app stopped600))
  /\ Status.timeRunning (getStatus 5000 (app (stop stopped600))) = 5000 - 1000
  /\ Status.timeRunning (getStatus 5000 (app (stop stopped600)))
     < Status.timeRunning (getStatus 9000 (app (stop stopped600))).
Proof.
  apply (stop_keeps_stats stopped600 1000 5000 9000).
  - reflexivity.
  - discriminate.
  - reflexivity.
Defined.

Example stopped600_status :
  Status.charactersTyped (getStatus 5000 (app (stop stopped600))) = 3
  /\ Status.timeRunning (getStatus 5000 (app (stop stopped600))) = 4000
  /\ Status.timeRunning (getStatus 9000 (app (stop stopped600))) = 8000.
Proof. vm_compute. repeat split; reflexivity. Qed.

(** ** The dispatched keystroke *)

Lemma typeNextCharacter_dispatch (host : Host) (a : AutoTypewriter)
    (el : Element) (ev : KeyboardEvent) :
  In (el, ev) (snd (typeNextCharacter host a)) ->
  activeElement host = Some el
  /\ (exists target, targetElement (config a) = Some target
                     /\ key ev = innerHTML host target)
  /\ plainKeypress ev.
Proof.
  unfold typeNextCharacter, typeNextCharacter_try.
  destruct (targetElement (config a)) as [target|]; [| intros []].
  destruct (innerHTML host target) as [| c rest] eqn:E; [intros [] |].
  simpl. destruct (activeElement host) as [el'|]; [| intros []].
  intros [H | []]. injection H as -> <-. simpl.
  split; [reflexivity |]. split; [exists target; now split |].
  unfold plainKeypress, codeOf. simpl. repeat split.
  - intros ->. reflexivity.
  - intros Hne. exists c, rest. split; [reflexivity |].
    unfold jsstring_eqb. rewrite bool_decide_eq_false_2; [reflexivity | exact Hne].
Qed.

Lemma step_dispatch (w : World) (e : Event) (el : Element) (ev : KeyboardEvent) :
  In (el, ev) (snd (step w e)) ->
  exists h host,
    e = TimerFires h host
    /\ In (el, ev) (snd (typeNextCharacter host (app w))).
Proof.
  destruct e as [t | | | | h host]; simpl; try (intros []).
  destruct (active (timers w) !! h) as [[[|] d]|]; try (intros []).
  unfold intervalCallback.
  destruct (negb (isPaused (app w))); [| intros []].
  intros H. exists h, host. split; [reflexivity |].
  destruct (typeNextCharacter host (app w)) as [a out]. exact H.
Qed.

(** C8: every keystroke event dispatched in a run of the program comes
    from a timer tick; it is dispatched against the element that had the
    focus at that tick, its key is the markup of the target element at
    that tick, its keyCode is 32 for a space and the code of the key's
    first character otherwise, alt, ctrl, shift and meta are false, and
    it bubbles and is cancelable. *)
Theorem dispatched_keystroke
    (w : World) (es : list Event) (el : Element) (ev : KeyboardEvent) :
  In (el, ev) (snd (run w es)) ->
  exists h host target,
    In (TimerFires h host) es
    /\ activeElement host = Some el
    /\ targetElement (config (app w)) = Some target
    /\ key ev = innerHTML host target
    /\ plainKeypress ev.
Proof.
  revert w. induction es as [| e es IH]; intros w; simpl; [intros [] |].
  destruct (step w e) as [w1 out1] eqn:E1.
  destruct (run w1 es) as [w2 out2] eqn:E2. simpl.
  intros H. apply in_app_or in H. destruct H as [H | H].
  - assert (H' : In (el, ev) (snd (step w e))) by now rewrite E1.
    apply step_dispatch in H'. destruct H' as (h & host & -> & H').
    apply typeNextCharacter_dispatch in H'.
    destruct H' as (Hf & (target & Ht & Hk) & Hp).
    exists h, host, target. repeat split; try assumption; try apply Hp.
    now left.
  - assert (H' : In (el, ev) (snd (run w1 es))) by now rewrite E2.
    apply IH in H'. destruct H' as (h & host & target & Hin & Hf & Ht & Hk & Hp).
    exists h, host, target. repeat split; try assumption; try apply Hp.
    + now right.
    + rewrite <- Ht. symmetry.
      replace w1 with (fst (step w e)) by now rewrite E1.
      now rewrite step_config.
Qed.

Lemma dispatched_keystroke_witness :
  exists h host target,
    In (TimerFires h host) [ClickStart 1000; TimerFires 2%positive hostA]
    /\ activeElement host = Some 3%nat
    /\ targetElement (config (app world600)) = Some target
    /\ key keypressA = innerHTML host target
    /\ plainKeypress keypressA.
Proof.
  apply (dispatched_keystroke world600
           [ClickStart 1000; TimerFires 2%positive hostA] 3%nat keypressA).
  vm_compute. left. reflexivity.
Defined.

Example keystroke_for_space :
  snd (typeNextCharacter hostSpace (app started600))
  = [(3%nat, {| type := js "keypress"; key := js " "; keyCode := Some 32%N;
                altKey := false; ctrlKey := false; shiftKey := false;
                metaKey := false; bubbles := true; cancelable := true |})].
Proof. reflexivity. Qed.

(** ** Ticks after [stop] *)

Lemma noTypingTimer_clearInterval (h : TimerHandle) (t : Timers) :
  noTypingTimer t -> noTypingTimer (clearInterval h t).
Proof.
  intros H h' x. simpl. intros Hl.
  apply lookup_delete_Some in Hl. destruct Hl as [_ Hl]. eapply H, Hl.
Qed.

Lemma intervalCallback_frame (host : Host) (a : AutoTypewriter) :
  let a' := fst (intervalCallback host a) in
  isRunning a' = isRunning a /\ isPaused a' = isPaused a
  /\ intervalId a' = intervalId a /\ statsInterval a' = statsInterval a.
Proof.
  unfold intervalCallback, typeNextCharacter, typeNextCharacter_try.
  destruct (negb (isPaused a)); [| repeat split].
  destruct (targetElement (config a)) as [target|]; [| repeat split].
  destruct (negb (truthy (innerHTML host target))); [repeat split |].
  destruct (activeElement host); repeat split.
Qed.

Lemma stop_quiet (w : World) : timerInvariant w -> quiet (stop w).
Proof.
  intros [I1 I2]. unfold quiet, stop. simpl.
  split; [reflexivity |]. split; [reflexivity |].
  intros h x Hl. destruct (callback x) eqn:Ecb; [exfalso | reflexivity].
  destruct (intervalId (app w)) as [h0|] eqn:Eid; simpl in Hl.
  - apply lookup_delete_Some in Hl. destruct Hl as [Hne Hl].
    specialize (I1 h x Hl Ecb). congruence.
  - specialize (I1 h x Hl Ecb). discriminate.
Qed.

Lemma quiet_invariant (w : World) : quiet w -> timerInvariant w.
Proof.
  intros (Hr & Hid & Hno). split; [| intros _; exact Hid].
  intros h x Hl Hcb. rewrite (Hno h x Hl) in Hcb. discriminate.
Qed.

Lemma closeUI_quiet (w : World) : timerInvariant w -> quiet (closeUI w).
Proof.
  intros Hinv. destruct (stop_quiet w Hinv) as (Hr & Hid & Hno).
  unfold closeUI, quiet. simpl.
  split; [reflexivity |]. split; [reflexivity |].
  destruct (statsInterval (app w)); [| exact Hno].
  now apply noTypingTimer_clearInterval.
Qed.

Lemma step_invariant (w : World) (e : Event) :
  timerInvariant w -> timerInvariant (fst (step w e)).
Proof.
  intros Hinv. destruct e as [t | | | | h host]; simpl.
  - unfold startTyping.
    destruct (isRunning (app w)) eqn:Er; [exact Hinv |].
    destruct Hinv as [I1 I2].
    split; simpl; [| discriminate].
    intros h x Hl Hcb.
    destruct (decide (nextHandle (timers w) = h)) as [-> | Hne];
      [reflexivity |].
    rewrite lookup_insert_ne in Hl by exact Hne.
    specialize (I1 h x Hl Hcb). rewrite (I2 Er) in I1. discriminate.
  - destruct Hinv as [I1 I2].
    destruct (pressPause_frame (app w)) as (Hr & _ & _ & Hid & _).
    fold (pressPause (app w)). split; simpl.
    + intros h x Hl Hcb. rewrite Hid. now apply I1 with x.
    + rewrite Hr, Hid. exact I2.
  - apply quiet_invariant, stop_quiet, Hinv.
  - apply quiet_invariant, closeUI_quiet, Hinv.
  - destruct (active (timers w) !! h) as [[[|] d]|]; try exact Hinv.
    destruct (intervalCallback_frame host (app w)) as (Hr & _ & Hid & _).
    destruct (intervalCallback host (app w)) as [a out]. simpl in *.
    destruct Hinv as [I1 I2]. split; simpl.
    + intros h' x Hl Hcb. rewrite Hid. now apply I1 with x.
    + rewrite Hr, Hid. exact I2.
Qed.

Lemma init_invariant compatible page answers (w : World) :
  init compatible page answers boot = Some w -> timerInvariant w.
Proof.
  unfold init. destruct compatible; simpl.
  2:{ intros H. injection H as <-. split; simpl; [| reflexivity].
      intros h x Hl. rewrite lookup_empty in Hl. discriminate. }
  assert (Hstats : forall h (x : Timer),
             (<[1%positive := {| callback := StatsRedraw; delay := 1000%float |}]>
                (∅ : gmap TimerHandle Timer)) !! h = Some x ->
             callback x = TypingTick -> False).
  { intros h x Hl Hcb. apply lookup_insert_Some in Hl.
    destruct Hl as [[_ <-] | [_ Hl]]; [discriminate |].
    rewrite lookup_empty in Hl. discriminate. }
  unfold setupConfiguration. simpl.
  destruct (textTodoChild page) as [target|].
  2:{ intros H. injection H as <-. split; simpl; [| reflexivity].
      intros h x Hl Hcb. exfalso. eapply Hstats; eassumption. }
  destruct (promptLoop answers) as [[n rest]|]; [| discriminate].
  intros H. injection H as <-. unfold setupEventHandling. simpl.
  destruct (startDialog page); [destruct (negb (startDialogHidden page)) |];
    (split; simpl; [| reflexivity]);
    intros h x Hl Hcb; exfalso; eapply Hstats; eassumption.
Qed.

Lemma reachable_invariant (w : World) : reachable w -> timerInvariant w.
Proof.
  induction 1 as [compatible page answers w Hinit | w e _ IH].
  - eapply init_invariant, Hinit.
  - apply step_invariant, IH.
Qed.

Lemma step_quiet (w : World) (e : Event) :
  quiet w -> isStart e = false ->
  quiet (fst (step w e))
  /\ stats (app (fst (step w e))) = stats (app w)
  /\ snd (step w e) = [].
Proof.
  intros Hq Hns. destruct e as [t | | | | h host]; simpl in *.
  - discriminate.
  - destruct Hq as (Hr & Hid & Hno).
    rewrite (togglePause_idle _ Hr). simpl. repeat split; assumption.
  - split; [apply stop_quiet, quiet_invariant, Hq | split; reflexivity].
  - split; [apply closeUI_quiet, quiet_invariant, Hq | split; reflexivity].
  - destruct (active (timers w) !! h) as [[cb d]|] eqn:El.
    + destruct Hq as (Hr & Hid & Hno).
      pose proof (Hno h _ El) as Hcb. simpl in Hcb. subst cb.
      simpl. repeat split; assumption.
    + simpl. split; [exact Hq | split; reflexivity].
Qed.

Lemma run_quiet (es : list Event) :
  forall w : World,
    quiet w ->
    forallb (fun e => negb (isStart e)) es = true ->
    quiet (fst (run w es))
    /\ stats (app (fst (run w es))) = stats (app w)
    /\ snd (run w es) = [].
Proof.
  induction es as [| e es IH]; intros w Hq Hes; simpl.
  - split; [exact Hq | split; reflexivity].
  - simpl in Hes. apply andb_true_iff in Hes. destruct Hes as [He Hes].
    apply negb_true_iff in He.
    destruct (step_quiet w e Hq He) as (Hq1 & Hs1 & Ho1).
    destruct (step w e) as [w1 out1]. simpl in *.
    destruct (IH w1 Hq1 Hes) as (Hq2 & Hs2 & Ho2).
    destruct (run w1 es) as [w2 out2]. simpl in *.
    subst. split; [exact Hq2 | split; [congruence | reflexivity]].
Qed.

(** C3: after [stop], in any state the program can reach, no further
    tick increments charactersTyped.  [stop] cancels the typing timer: no
    typing callback remains scheduled and intervalId is null, so a timer
    of any handle coming due after the stop (the cancelled one included)
    runs no tick.  Whatever follows short of a new start (clicks on
    pause, stop or close, timers coming due) dispatches no keystroke and
    leaves charactersTyped as it was, with isRunning false. *)
Theorem no_tick_after_stop (w : World) (es : list Event) :
  reachable w ->
  forallb (fun e => negb (isStart e)) es = true ->
  noTypingTimer (timers (stop w))
  /\ intervalId (app (stop w)) = None
  /\ typed (fst (run (stop w) es)) = typed w
  /\ isRunning (app (fst (run (stop w) es))) = false
  /\ snd (run (stop w) es) = [].
Proof.
  intros Hw Hes.
  pose proof (stop_quiet w (reachable_invariant w Hw)) as Hq.
  destruct (run_quiet es (stop w) Hq Hes) as (Hq2 & Hs & Ho).
  destruct Hq as (_ & Hid & Hno). destruct Hq2 as (Hr & _ & _).
  unfold typed. rewrite Hs. repeat split; assumption.
Qed.

Lemma reachable_started600 : reachable started600.
Proof. exact (reachable_step world600 (ClickStart 1000) reachable_world600). Defined.

Lemma no_tick_after_stop_witness :
  noTypingTimer (timers (stop started600))
  /\ intervalId (app (stop started600)) = None
  /\ typed (fst (run (stop started600)
                   [TimerFires 2%positive hostA; ClickPause;
                    TimerFires 1%positive hostA; TimerFires 2%positive hostA]))
     = typed started600
  /\ isRunning (app (fst (run (stop started600)
                   [TimerFires 2%positive hostA; ClickPause;
                    TimerFires 1%positive hostA; TimerFires 2%positive hostA])))
     = false
  /\ snd (run (stop started600)
            [TimerFires 2%positive hostA; ClickPause;
             TimerFires 1%positive hostA; TimerFires 2%positive hostA]) = [].
Proof.
  apply (no_tick_after_stop started600
           [TimerFires 2%positive hostA; ClickPause;
            TimerFires 1%positive hostA; TimerFires 2%positive hostA]).
  - exact reachable_started600.
  - reflexivity.
Defined.

(** It is the cancellation that ends the ticks, not a test in the
    callback: the scheduled function looks at isPaused only.  Applied by
    hand to the state [stop] leaves, which no timer does once the handle
    is cleared, it would type a character. *)
Lemma stale_tick_after_stop_types :
  reachable started600
  /\ isRunning (app (stop started600)) = false
  /\ typed (stop started600) = 0
  /\ charactersTyped
       (stats (fst (intervalCallback hostA (app (stop started600))))) = 1
  /\ length (snd (intervalCallback hostA (app (stop started600)))) = 1%nat.
Proof.
  split; [exact reachable_started600 |].
  vm_compute. repeat split; reflexivity.
Qed.

(** * Further properties of the code *)

(** ** Stopping twice, stopping while idle *)

Lemma world_eta (w : World) : {| app := app w; timers := timers w |} = w.
Proof. now destruct w. Qed.



(** ** The counter and the dispatched keystrokes *)

Lemma intervalCallback_counts (host : Host) (a : AutoTypewriter) :
  charactersTyped (stats (fst (intervalCallback host a)))
  = charactersTyped (stats a)
    + Z.of_nat (length (snd (intervalCallback host a))).
Proof.
  unfold intervalCallback, typeNextCharacter, typeNextCharacter_try.
  destruct (negb (isPaused a)); simpl; [| lia].
  destruct (targetElement (config a)) as [target|]; simpl; [| lia].
  destruct (negb (truthy (innerHTML host target))); simpl; [lia |].
  destruct (activeElement host); simpl; lia.
Qed.

Lemma step_counts (w : World) (e : Event) :
  isStart e = false ->
  typed (fst (step w e))
  = typed w + Z.of_nat (length (snd (step w e))).
Proof.
  intros Hns. unfold typed. destruct e as [t | | | | h host]; simpl.
  - discriminate.
  - destruct (pressPause_frame (app w)) as (_ & Hs & _).
    fold (pressPause (app w)). rewrite Hs. lia.
  - lia.
  - lia.
  - destruct (active (timers w) !! h) as [[[|] d]|]; simpl; try lia.
    pose proof (intervalCallback_counts host (app w)) as H.
    destruct (intervalCallback host (app w)) as [a out]. simpl in *. exact H.
Qed.

(** X2: between two starts, the counter counts the dispatched
    keystrokes: over any sequence of events without a start,
    charactersTyped grows by exactly the number of keystroke events
    dispatched. *)
Theorem charactersTyped_counts_dispatches (w : World) (es : list Event) :
  forallb (fun e => negb (isStart e)) es = true ->
  typed (fst (run w es)) = typed w + Z.of_nat (length (snd (run w es))).
Proof.
  revert w. induction es as [| e es IH]; intros w Hes; simpl.
  - lia.
  - simpl in Hes. apply andb_true_iff in Hes. destruct Hes as [He Hes].
    apply negb_true_iff in He.
    pose proof (step_counts w e He) as H1.
    destruct (step w e) as [w1 out1]. simpl in H1.
    specialize (IH w1 Hes).
    destruct (run w1 es) as [w2 out2]. simpl in *.
    rewrite length_app. lia.
Qed.

Lemma charactersTyped_counts_dispatches_witness :
  typed (fst (run started600
                [TimerFires 2%positive hostA; TimerFires 2%positive hostEmpty;
                 ClickPause; TimerFires 2%positive hostA; ClickPause;
                 TimerFires 2%positive hostA; ClickStop;
                 TimerFires 2%positive hostA]))
  = typed started600
    + Z.of_nat (length (snd (run started600
                [TimerFires 2%positive hostA; TimerFires 2%positive hostEmpty;
                 ClickPause; TimerFires 2%positive hostA; ClickPause;
                 TimerFires 2%positive hostA; ClickStop;
                 TimerFires 2%positive hostA]))).
Proof.
  apply (charactersTyped_counts_dispatches started600).
  reflexivity.
Defined.

(** ** Ticks while paused *)

(** X3: while the session is paused, timers coming due change nothing:
    whatever timers fire, and whatever the page shows, the state stays as
    it is and no keystroke is dispatched. *)
Theorem paused_ticks_do_nothing (w : World) (es : list Event) :
  isPaused (app w) = true ->
  forallb isTimerEvent es = true ->
  run w es = (w, []).
Proof.
  intros Hp. induction es as [| e es IH]; intros Hes; simpl; [reflexivity |].
  simpl in Hes. apply andb_true_iff in Hes. destruct Hes as [He Hes].
  destruct e as [t | | | | h host]; try discriminate. simpl.
  assert (Hstep : match active (timers w) !! h with
                  | Some {| callback := TypingTick |} =>
                      let '(a, out) := intervalCallback host (app w) in
                      ({| app := a; timers := timers w |}, out)
                  | Some {| callback := StatsRedraw |} => (w, [])
                  | None => (w, [])
                  end = (w, [])).
  { destruct (active (timers w) !! h) as [[[|] d]|]; try reflexivity.
    unfold intervalCallback. rewrite Hp. simpl. now rewrite world_eta. }
  rewrite Hstep. now rewrite (IH Hes).
Qed.

Lemma paused_ticks_do_nothing_witness :
  run paused600
      [TimerFires 2%positive hostA; TimerFires 1%positive hostA;
       TimerFires 2%positive hostSpace; TimerFires 5%positive hostA]
  = (paused600, []).
Proof.
  apply (paused_ticks_do_nothing paused600).
  - reflexivity.
  - reflexivity.
Defined.

(** ** The typing timer of a session *)

Lemma intervalCallback_config (host : Host) (a : AutoTypewriter) :
  config (fst (intervalCallback host a)) = config a.
Proof.
  unfold intervalCallback, typeNextCharacter, typeNextCharacter_try.
  destruct (negb (isPaused a)); [| reflexivity].
  destruct (targetElement (config a)) as [target|]; [| reflexivity].
  destruct (negb (truthy (innerHTML host target))); [reflexivity |].
  destruct (activeElement host); reflexivity.
Qed.

Lemma step_sessionTimer (w : World) (e : Event) :
  sessionTimer w -> sessionTimer (fst (step w e)).
Proof.
  intros Hs. destruct e as [t | | | | h host]; simpl.
  - unfold startTyping. destruct (isRunning (app w)) eqn:Er; [exact Hs |].
    split; simpl.
    + intros _. now exists (nextHandle (timers w)).
    + intros h Hh. injection Hh as <-. split; [reflexivity |].
      apply lookup_insert_eq.
  - destruct Hs as [S1 S2].
    destruct (pressPause_frame (app w)) as (Hr & _ & Hc & Hid & _).
    fold (pressPause (app w)). split; simpl.
    + rewrite Hr, Hid. exact S1.
    + intros h. rewrite Hid, Hr, Hc. apply S2.
  - split; simpl; discriminate.
  - split; simpl; discriminate.
  - destruct (active (timers w) !! h) as [[[|] d]|]; try exact Hs.
    destruct Hs as [S1 S2].
    destruct (intervalCallback_frame host (app w)) as (Hr & _ & Hid & _).
    pose proof (intervalCallback_config host (app w)) as Hc.
    destruct (intervalCallback host (app w)) as [a out]. simpl in *.
    split; simpl.
    + rewrite Hr, Hid. exact S1.
    + intros h'. rewrite Hid, Hr, Hc. apply S2.
Qed.

Lemma init_not_running compatible page answers (w : World) :
  init compatible page answers boot = Some w ->
  isRunning (app w) = false /\ intervalId (app w) = None /\ typed w = 0.
Proof.
  unfold init, typed. destruct compatible; simpl.
  2:{ intros H. injection H as <-. repeat split. }
  unfold setupConfiguration. simpl.
  destruct (textTodoChild page) as [target|].
  2:{ intros H. injection H as <-. repeat split. }
  destruct (promptLoop answers) as [[n rest]|]; [| discriminate].
  intros H. injection H as <-. unfold setupEventHandling. simpl.
  destruct (startDialog page); [destruct (negb (startDialogHidden page)) |];
    repeat split.
Qed.

Lemma reachable_sessionTimer (w : World) : reachable w -> sessionTimer w.
Proof.
  induction 1 as [compatible page answers w Hinit | w e _ IH].
  - destruct (init_not_running _ _ _ _ Hinit) as (Hr & Hid & _).
    split; [rewrite Hr; discriminate | rewrite Hid; discriminate].
  - apply step_sessionTimer, IH.
Qed.

(** X4: in every reachable state the object is running exactly when
    [intervalId] names a timer; that timer is then scheduled, runs the
    typing callback at the configured interval msToWait, and is the only
    typing callback scheduled.  So a session never types at double
    speed, and an idle object has no typing timer. *)
Theorem one_typing_timer (w : World) :
  reachable w ->
  (isRunning (app w) = true <-> exists h, intervalId (app w) = Some h)
  /\ (forall h, intervalId (app w) = Some h ->
                active (timers w) !! h
                = Some {| callback := TypingTick;
                          delay := msToWait (config (app w)) |})
  /\ (forall h x, active (timers w) !! h = Some x ->
                  callback x = TypingTick -> intervalId (app w) = Some h).
Proof.
  intros Hw.
  destruct (reachable_sessionTimer w Hw) as [S1 S2].
  destruct (reachable_invariant w Hw) as [I1 _].
  split; [split; [exact S1 | intros [h Hh]; apply (S2 h Hh)] |].
  split; [intros h Hh; apply (S2 h Hh) | exact I1].
Qed.

Lemma one_typing_timer_witness :
  (isRunning (app started600) = true
   <-> exists h, intervalId (app started600) = Some h)
  /\ (forall h, intervalId (app started600) = Some h ->
                active (timers started600) !! h
                = Some {| callback := TypingTick;
                          delay := msToWait (config (app started600)) |})
  /\ (forall h x, active (timers started600) !! h = Some x ->
                  callback x = TypingTick ->
                  intervalId (app started600) = Some h).
Proof.
  apply (one_typing_timer started600).
  exact reachable_started600.
Defined.

(** ** Closing the overlay *)

Lemma step_statsInterval (w : World) (e : Event) :
  statsInterval (app (fst (step w e))) = statsInterval (app w).
Proof.
  destruct e as [t | | | | h host]; simpl.
  - unfold startTyping. destruct (isRunning (app w)); reflexivity.
  - unfold togglePause. destruct (isRunning (app w)); simpl; [| reflexivity].
    destruct (ui (app w)) as [o|]; simpl; [| reflexivity].
    destruct (pauseBtn o); reflexivity.
  - reflexivity.
  - reflexivity.
  - destruct (active (timers w) !! h) as [[[|] d]|]; try reflexivity.
    destruct (intervalCallback_frame host (app w)) as (_ & _ & _ & Hs).
    destruct (intervalCallback host (app w)) as [a out]. exact Hs.
Qed.

Lemma step_redrawTimerOwned (w : World) (e : Event) :
  redrawTimerOwned w -> redrawTimerOwned (fst (step w e)).
Proof.
  intros Hown h x. rewrite step_statsInterval.
  destruct e as [t | | | | h' host]; simpl.
  - unfold startTyping. destruct (isRunning (app w)); [apply Hown |].
    simpl. intros Hl Hcb. apply lookup_insert_Some in Hl.
    destruct Hl as [[_ <-] | [_ Hl]]; [discriminate | now apply Hown with x].
  - apply Hown.
  - unfold stop. simpl. destruct (intervalId (app w)); [| apply Hown].
    simpl. intros Hl. apply lookup_delete_Some in Hl. now apply Hown.
  - unfold closeUI, stop. simpl. intros Hl Hcb.
    assert (Hl' : active (timers w) !! h = Some x).
    { destruct (statsInterval (app w)); simpl in Hl;
        [apply lookup_delete_Some in Hl; destruct Hl as [_ Hl] |];
        (destruct (intervalId (app w)); simpl in Hl;
         [apply lookup_delete_Some in Hl; apply Hl | exact Hl]). }
    now apply Hown with x.
  - destruct (active (timers w) !! h') as [[[|] d]|]; try apply Hown.
    destruct (intervalCallback host (app w)) as [a out]. apply Hown.
Qed.

Lemma init_redrawTimerOwned compatible page answers (w : World) :
  init compatible page answers boot = Some w -> redrawTimerOwned w.
Proof.
  unfold init. destruct compatible; simpl.
  2:{ intros H. injection H as <-. intros h x Hl. simpl in Hl.
      rewrite lookup_empty in Hl. discriminate. }
  assert (Hone : forall h (x : Timer),
             (<[1%positive := {| callback := StatsRedraw; delay := 1000%float |}]>
                (∅ : gmap TimerHandle Timer)) !! h = Some x ->
             Some 1%positive = Some h).
  { intros h x Hl. apply lookup_insert_Some in Hl.
    destruct Hl as [[<- _] | [_ Hl]]; [reflexivity |].
    rewrite lookup_empty in Hl. discriminate. }
  unfold setupConfiguration. simpl.
  destruct (textTodoChild page) as [target|].
  2:{ intros H. injection H as <-. intros h x Hl _. now apply Hone with x. }
  destruct (promptLoop answers) as [[n rest]|]; [| discriminate].
  intros H. injection H as <-. unfold setupEventHandling. simpl.
  destruct (startDialog page); [destruct (negb (startDialogHidden page)) |];
    intros h x Hl _; now apply Hone with x.
Qed.

Lemma reachable_redrawTimerOwned (w : World) :
  reachable w -> redrawTimerOwned w.
Proof.
  induction 1 as [compatible page answers w Hinit | w e _ IH].
  - eapply init_redrawTimerOwned, Hinit.
  - apply step_redrawTimerOwned, IH.
Qed.

(** X5: closing the overlay leaves nothing behind.  From any reachable
    state, [closeUI] ends the session, drops the overlay, and cancels
    every timer the script had scheduled: the table of active timers is
    empty. *)
Theorem closeUI_cancels_every_timer (w : World) :
  reachable w ->
  active (timers (closeUI w)) = ∅
  /\ ui (app (closeUI w)) = None
  /\ isRunning (app (closeUI w)) = false
  /\ intervalId (app (closeUI w)) = None
  /\ stats (app (closeUI w)) = stats (app w).
Proof.
  intros Hw. split; [| repeat split].
  pose proof (stop_quiet w (reachable_invariant w Hw)) as (_ & _ & Hno).
  pose proof (step_redrawTimerOwned w ClickStop
                (reachable_redrawTimerOwned w Hw)) as Hown.
  simpl in Hown.
  assert (Hc : timers (closeUI w)
               = match statsInterval (app (stop w)) with
                 | Some h0 => clearInterval h0 (timers (stop w))
                 | None => timers (stop w)
                 end) by reflexivity.
  rewrite Hc. clear Hc.
  apply map_eq. intros h. rewrite lookup_empty.
  destruct (statsInterval (app (stop w))) as [hs|] eqn:Es.
  - destruct (active (clearInterval hs (timers (stop w))) !! h)
      as [x|] eqn:El; [exfalso | reflexivity].
    simpl in El. apply lookup_delete_Some in El. destruct El as [Hne El].
    pose proof (Hown h x El (Hno h x El)) as H. congruence.
  - destruct (active (timers (stop w)) !! h) as [x|] eqn:El;
      [exfalso | reflexivity].
    pose proof (Hown h x El (Hno h x El)) as H. congruence.
Qed.

Lemma closeUI_cancels_every_timer_witness :
  active (timers (closeUI started600)) = ∅
  /\ ui (app (closeUI started600)) = None
  /\ isRunning (app (closeUI started600)) = false
  /\ intervalId (app (closeUI started600)) = None
  /\ stats (app (closeUI started600)) = stats (app started600).
Proof.
  apply (closeUI_cancels_every_timer started600).
  exact reachable_started600.
Defined.

(** ** A page without the typing widget *)

Lemma step_without_target (w : World) (e : Event) :
  targetElement (config (app w)) = None ->
  typed w = 0 ->
  snd (step w e) = [] /\ typed (fst (step w e)) = 0.
Proof.
  intros Ht H0. unfold typed in *. destruct e as [t | | | | h host]; simpl.
  - split; [reflexivity |]. unfold startTyping.
    destruct (isRunning (app w)); [exact H0 | reflexivity].
  - destruct (pressPause_frame (app w)) as (_ & Hs & _).
    fold (pressPause (app w)). now rewrite Hs.
  - now split.
  - now split.
  - destruct (active (timers w) !! h) as [[[|] d]|]; try now split.
    unfold intervalCallback, typeNextCharacter, typeNextCharacter_try.
    rewrite Ht. destruct (negb (isPaused (app w))); now split.
Qed.

Lemma run_without_target (es : list Event) :
  forall w : World,
    targetElement (config (app w)) = None ->
    typed w = 0 ->
    snd (run w es) = [] /\ typed (fst (run w es)) = 0.
Proof.
  induction es as [| e es IH]; intros w Ht H0; simpl; [now split |].
  destruct (step_without_target w e Ht H0) as [Ho1 Hz1].
  pose proof (step_config w e) as Hc.
  destruct (step w e) as [w1 out1]. simpl in *.
  rewrite <- Hc in Ht.
  destruct (IH w1 Ht Hz1) as [Ho2 Hz2].
  destruct (run w1 es) as [w2 out2]. simpl in *. subst. now split.
Qed.

(** X6: when [init] does not find the typing widget (the site is not the
    supported one, or the page has no [#text_todo_1] child), nothing that
    follows ever types: whatever buttons are pressed and whatever timers
    fire, no keystroke is dispatched and charactersTyped stays 0. *)
Theorem no_widget_no_keystroke
    (compatible : bool) (page : Page) (answers : list (option jsstring))
    (w : World) (es : list Event) :
  init compatible page answers boot = Some w ->
  compatible = false \/ textTodoChild page = None ->
  snd (run w es) = [] /\ typed (fst (run w es)) = 0.
Proof.
  intros Hinit Hno.
  destruct (init_not_running _ _ _ _ Hinit) as (_ & _ & H0).
  apply run_without_target; [| exact H0].
  unfold init in Hinit. destruct compatible; simpl in Hinit.
  - destruct Hno as [Hno | Hno]; [discriminate |].
    unfold setupConfiguration in Hinit. simpl in Hinit.
    rewrite Hno in Hinit. injection Hinit as <-. reflexivity.
  - injection Hinit as <-. reflexivity.
Qed.

Lemma no_widget_no_keystroke_witness :
  snd (run worldNoWidget
         [ClickStart 1000; TimerFires 2%positive hostA; ClickPause;
          ClickPause; TimerFires 2%positive hostA]) = []
  /\ typed (fst (run worldNoWidget
         [ClickStart 1000; TimerFires 2%positive hostA; ClickPause;
          ClickPause; TimerFires 2%positive hostA])) = 0.
Proof.
  apply (no_widget_no_keystroke true pageNoWidget [Some (js "600")]
           worldNoWidget).
  - reflexivity.
  - right. reflexivity.
Defined.

(** ** [isValidInput] and the prompt *)

(** X7: [isValidInput] accepts exactly the inputs [parseInt] reads as
    1..1000.  Each of them is also accepted by the configuration prompt;
    an input read as 1001..10000 is accepted by the prompt and refused by
    [isValidInput]. *)
Theorem isValidInput_against_prompt
    (input : jsstring) (rest : list (option jsstring)) :
  (isValidInput input = true <->
   exists n, parseInt input = Some n /\ 1 <= n <= 1000)
  /\ (isValidInput input = true ->
      exists n, promptLoop (Some input :: rest) = Some (n, rest)
                /\ 1 <= n <= 1000)
  /\ (forall n, parseInt input = Some n -> 1000 < n <= 10000 ->
                isValidInput input = false
                /\ promptLoop (Some input :: rest) = Some (n, rest)).
Proof.
  assert (Hiff : isValidInput input = true <->
                 exists n, parseInt input = Some n /\ 1 <= n <= 1000).
  { unfold isValidInput. destruct (parseInt input) as [m|]; split.
    - rewrite andb_true_iff, Z.ltb_lt, Z.leb_le. intros H.
      exists m. split; [reflexivity | lia].
    - intros (n & Hn & Hr). injection Hn as ->.
      rewrite andb_true_iff, Z.ltb_lt, Z.leb_le. lia.
    - discriminate.
    - intros (n & Hn & _). discriminate. }
  split; [exact Hiff |]. split.
  - intros H. apply Hiff in H. destruct H as (n & Hn & Hr).
    exists n. split; [| exact Hr].
    apply promptLoop_accepts; [exact Hn | lia].
  - intros n Hn Hr. split.
    + unfold isValidInput. rewrite Hn.
      rewrite andb_false_iff, Z.leb_gt. right. lia.
    + apply promptLoop_accepts; [exact Hn | lia].
Qed.

(** ** The redraw timer of the overlay *)

Lemma step_ui_kept (w : World) (e : Event) (o : Overlay) :
  ui (app (fst (step w e))) = Some o -> exists o', ui (app w) = Some o'.
Proof.
  destruct e as [t | | | | h host]; simpl.
  - unfold startTyping. destruct (isRunning (app w)); simpl; eauto.
  - destruct (ui (app w)) as [o'|] eqn:E; [eauto |].
    unfold togglePause. destruct (isRunning (app w)); simpl; rewrite E;
      simpl; try rewrite E; discriminate.
  - eauto.
  - discriminate.
  - destruct (active (timers w) !! h) as [[[|] d]|]; eauto.
    unfold intervalCallback, typeNextCharacter, typeNextCharacter_try.
    destruct (negb (isPaused (app w))); simpl; eauto.
    destruct (targetElement (config (app w))) as [target|]; simpl; eauto.
    destruct (negb (truthy (innerHTML host target))); simpl; eauto.
    destruct (activeElement host); simpl; eauto.
Qed.

Lemma step_redrawTimerScheduled (w : World) (e : Event) :
  sessionTimer w -> redrawTimerScheduled w ->
  redrawTimerScheduled (fst (step w e)).
Proof.
  intros [_ S2] [R1 R2]. split.
  - intros o Ho. destruct (step_ui_kept w e o Ho) as [o' Ho'].
    destruct (R1 o' Ho') as (hs & Hs & Hl).
    exists hs. rewrite step_statsInterval. split; [exact Hs |].
    destruct e as [t | | | | h host]; simpl.
    + unfold startTyping. destruct (isRunning (app w)); [exact Hl |].
      simpl. rewrite lookup_insert_ne; [exact Hl |].
      intros Heq. specialize (R2 hs (mk_is_Some _ _ Hl)). lia.
    + exact Hl.
    + unfold stop. simpl.
      destruct (intervalId (app w)) as [h|] eqn:Eid; [| exact Hl].
      simpl. rewrite lookup_delete_ne; [exact Hl |].
      intros Heq. subst hs. destruct (S2 h eq_refl) as [_ Hh]. congruence.
    + simpl in Ho. discriminate.
    + destruct (active (timers w) !! h) as [[[|] d]|]; try exact Hl.
      destruct (intervalCallback host (app w)) as [a out]. exact Hl.
  - intros h. destruct e as [t | | | | h' host]; simpl.
    + unfold startTyping. destruct (isRunning (app w)); [apply R2 |].
      simpl. intros [x Hx]. apply lookup_insert_Some in Hx.
      destruct Hx as [[<- _] | [_ Hx]]; [lia |].
      specialize (R2 h (mk_is_Some _ _ Hx)). lia.
    + apply R2.
    + unfold stop. simpl. destruct (intervalId (app w)); [| apply R2].
      simpl. intros [x Hx]. apply lookup_delete_Some in Hx.
      apply R2. exists x. apply Hx.
    + unfold closeUI, stop. simpl.
      destruct (statsInterval (app w)); destruct (intervalId (app w));
        simpl; intros [x Hx];
        repeat (apply lookup_delete_Some in Hx; destruct Hx as [_ Hx]);
        apply R2; exists x; exact Hx.
    + destruct (active (timers w) !! h') as [[[|] d]|]; try apply R2.
      destruct (intervalCallback host (app w)) as [a out]. apply R2.
Qed.

Lemma init_redrawTimerScheduled compatible page answers (w : World) :
  init compatible page answers boot = Some w -> redrawTimerScheduled w.
Proof.
  unfold init. destruct compatible; simpl.
  2:{ intros H. injection H as <-. split; simpl; [discriminate |].
      intros h [x Hx]. rewrite lookup_empty in Hx. discriminate. }
  assert (Hfresh : forall h,
             is_Some ((<[1%positive := {| callback := StatsRedraw;
                                          delay := 1000%float |}]>
                         (∅ : gmap TimerHandle Timer)) !! h) ->
             (h < 1 + 1)%positive).
  { intros h [x Hx]. apply lookup_insert_Some in Hx.
    destruct Hx as [[<- _] | [_ Hx]]; [lia |].
    rewrite lookup_empty in Hx. discriminate. }
  unfold setupConfiguration. simpl.
  destruct (textTodoChild page) as [target|].
  2:{ intros H. injection H as <-. split; simpl; [| exact Hfresh].
      intros o _. exists 1%positive. split; [reflexivity |].
      apply lookup_insert_eq. }
  destruct (promptLoop answers) as [[n rest]|]; [| discriminate].
  intros H. injection H as <-. unfold setupEventHandling. simpl.
  destruct (startDialog page); [destruct (negb (startDialogHidden page)) |];
    (split; simpl; [| exact Hfresh]);
    intros o _; exists 1%positive; (split; [reflexivity |]);
    apply lookup_insert_eq.
Qed.

Lemma reachable_redrawTimerScheduled (w : World) :
  reachable w -> redrawTimerScheduled w.
Proof.
  induction 1 as [compatible page answers w Hinit | w e Hw IH].
  - eapply init_redrawTimerScheduled, Hinit.
  - apply step_redrawTimerScheduled; [apply reachable_sessionTimer, Hw | exact IH].
Qed.

Lemma reachable_run (es : list Event) :
  forall w : World, reachable w -> reachable (fst (run w es)).
Proof.
  induction es as [| e es IH]; intros w Hw; simpl; [exact Hw |].
  pose proof (reachable_step w e Hw) as H1.
  destruct (step w e) as [w1 out1]. simpl in H1.
  specialize (IH w1 H1).
  destruct (run w1 es) as [w2 out2]. exact IH.
Qed.

(** X8: the overlay's redraw timer is independent of the typing session.
    In every reachable state where the overlay is still there, the redraw
    callback is scheduled every 1000 ms under the handle kept in
    statsInterval: starting, pausing and stopping sessions never cancel
    or replace it, and a new session always gets a handle of its own. *)
Theorem redraw_timer_outlives_sessions (w : World) (o : Overlay) :
  reachable w ->
  ui (app w) = Some o ->
  exists h,
    statsInterval (app w) = Some h
    /\ active (timers w) !! h
       = Some {| callback := StatsRedraw; delay := 1000%float |}
    /\ intervalId (app w) <> Some h
    /\ nextHandle (timers w) <> h.
Proof.
  intros Hw Ho.
  destruct (reachable_redrawTimerScheduled w Hw) as [R1 R2].
  destruct (reachable_sessionTimer w Hw) as [_ S2].
  destruct (R1 o Ho) as (h & Hs & Hl).
  exists h. split; [exact Hs |]. split; [exact Hl |]. split.
  - intros Hid. destruct (S2 h Hid) as [_ Hh]. congruence.
  - intros Heq. specialize (R2 h (mk_is_Some _ _ Hl)). lia.
Qed.

Lemma redraw_timer_outlives_sessions_witness :
  exists h,
    statsInterval (app stopped600) = Some h
    /\ active (timers stopped600) !! h
       = Some {| callback := StatsRedraw; delay := 1000%float |}
    /\ intervalId (app stopped600) <> Some h
    /\ nextHandle (timers stopped600) <> h.
Proof.
  apply (redraw_timer_outlives_sessions stopped600
           {| pauseBtn := Some (js "Pause") |}).
  - apply reachable_run. exact reachable_world600.
  - reflexivity.
Defined.

(** ** The statistics panel *)

Lemma step_overlayIntact (w : World) (e : Event) :
  overlayIntact w -> overlayIntact (fst (step w e)).
Proof.
  intros Hok. destruct e as [t | | | | h host]; simpl.
  - unfold startTyping. destruct (isRunning (app w)); exact Hok.
  - unfold overlayIntact, togglePause in *.
    destruct (isRunning (app w)); simpl; [| exact Hok].
    destruct (ui (app w)) as [o|] eqn:E; simpl; [| rewrite E; discriminate].
    destruct (pauseBtn o) as [l|] eqn:El; simpl.
    + intros o' H. injection H as <-. simpl. eauto.
    + rewrite E. intros o' H. injection H as <-. apply (Hok o eq_refl).
  - exact Hok.
  - intros o H. discriminate.
  - destruct (active (timers w) !! h) as [[[|] d]|]; try exact Hok.
    unfold overlayIntact, intervalCallback, typeNextCharacter,
      typeNextCharacter_try in *.
    destruct (negb (isPaused (app w))); simpl; [| exact Hok].
    destruct (targetElement (config (app w))) as [target|]; simpl;
      [| exact Hok].
    destruct (negb (truthy (innerHTML host target))); simpl; [exact Hok |].
    destruct (activeElement host); simpl; exact Hok.
Qed.

Lemma init_overlayIntact compatible page answers (w : World) :
  init compatible page answers boot = Some w -> overlayIntact w.
Proof.
  unfold init, overlayIntact. destruct compatible; simpl.
  2:{ intros H. injection H as <-. discriminate. }
  unfold setupConfiguration. simpl.
  destruct (textTodoChild page) as [target|].
  2:{ intros H. injection H as <-. simpl. intros o Ho.
      injection Ho as <-. simpl. eauto. }
  destruct (promptLoop answers) as [[n rest]|]; [| discriminate].
  intros H. injection H as <-. unfold setupEventHandling. simpl.
  destruct (startDialog page); [destruct (negb (startDialogHidden page)) |];
    simpl; intros o Ho; injection Ho as <-; simpl; eauto.
Qed.

Lemma reachable_overlayIntact (w : World) : reachable w -> overlayIntact w.
Proof.
  induction 1 as [compatible page answers w Hinit | w e _ IH].
  - eapply init_overlayIntact, Hinit.
  - apply step_overlayIntact, IH.
Qed.

(** X9: in every reachable state with the overlay open, the redraw
    completes and what it shows agrees with the object: Start is disabled
    exactly while running, Stop and Pause exactly while not running; the
    count shown is charactersTyped; a paused or idle overlay shows
    "0/min", and an idle one "Stopped" and "00:00", whatever the start
    time it still holds. *)
Theorem panel_agrees_with_state (w : World) (now : Z) (o : Overlay) :
  reachable w ->
  ui (app w) = Some o ->
  exists p,
    updateStats now (app w) = Redrawn p
    /\ startBtnDisabled p = isRunning (app w)
    /\ stopBtnDisabled p = negb (isRunning (app w))
    /\ pauseBtnDisabled p = negb (isRunning (app w))
    /\ charsTypedText p = numberToString (typed w)
    /\ (isPaused (app w) = true -> currentSpeedText p = ZeroPerMin)
    /\ (isRunning (app w) = false ->
        statusText p = js "Stopped"
        /\ timeRunningText p = js "00:00"
        /\ currentSpeedText p = ZeroPerMin).
Proof.
  intros Hw Ho.
  destruct (reachable_overlayIntact w Hw o Ho) as [l Hl].
  unfold updateStats. rewrite Ho, Hl. eexists. split; [reflexivity |].
  simpl.
  split; [reflexivity |]. split; [reflexivity |]. split; [reflexivity |].
  split; [reflexivity |]. split.
  - intros Hp. rewrite Hp.
    destruct (startTime (stats (app w))) as [t|]; [| reflexivity].
    now rewrite andb_false_r.
  - intros Hr. rewrite Hr. split; [reflexivity |].
    destruct (startTime (stats (app w))) as [t|]; [| now split].
    rewrite andb_false_r. now split.
Qed.

Lemma panel_agrees_with_state_witness :
  exists p,
    updateStats 9000 (app (stop stopped600)) = Redrawn p
    /\ startBtnDisabled p = isRunning (app (stop stopped600))
    /\ stopBtnDisabled p = negb (isRunning (app (stop stopped600)))
    /\ pauseBtnDisabled p = negb (isRunning (app (stop stopped600)))
    /\ charsTypedText p = numberToString (typed (stop stopped600))
    /\ (isPaused (app (stop stopped600)) = true ->
        currentSpeedText p = ZeroPerMin)
    /\ (isRunning (app (stop stopped600)) = false ->
        statusText p = js "Stopped"
        /\ timeRunningText p = js "00:00"
        /\ currentSpeedText p = ZeroPerMin).
Proof.
  apply (panel_agrees_with_state (stop stopped600) 9000
           {| pauseBtn := Some (js "Pause") |}).
  - apply (reachable_step stopped600 ClickStop).
    apply reachable_run. exact reachable_world600.
  - reflexivity.
Defined.

Example panel_after_stop :
  updateStats 9000 (app (stop stopped600))
  = Redrawn {| statusText := js "Stopped";
               statusIndicatorClass := js "ui-status stopped";
               startBtnDisabled := false;
               stopBtnDisabled := true;
               pauseBtnDisabled := true;
               charsTypedText := js "3";
               timeRunningText := js "00:00";
               currentSpeedText := ZeroPerMin |}
  /\ Status.timeRunning (getStatus 9000 (app (stop stopped600))) = 8000.
Proof. split; reflexivity. Qed.

(** ** The clock of the panel *)

Lemma twoDigits_upto :
  forallb twoDigits (map Z.of_nat (seq 0 100)) = true.
Proof. vm_compute. reflexivity. Qed.

Lemma padStart2_two_digits (k : Z) :
  0 <= k < 100 -> length (padStart2 (numberToString k)) = 2%nat.
Proof.
  intros Hk. pose proof twoDigits_upto as H.
  rewrite forallb_forall in H.
  specialize (H k). unfold twoDigits in H. apply Nat.eqb_eq, H.
  apply in_map_iff. exists (Z.to_nat k). split; [lia |].
  apply in_seq. lia.
Qed.

(** X10: while a session runs, the panel's clock shows the elapsed time
    as minutes and seconds: with elapsed = now - startTime >= 0, the text
    is the minutes m, a colon, and the seconds s, each padded to two
    digits, where 0 <= s < 60 and 60 m + s is the number of whole seconds
    elapsed.  Below 100 minutes the text has exactly five characters. *)
Theorem clock_shows_minutes_and_seconds
    (now t : Z) (a : AutoTypewriter) (o : Overlay) (label : jsstring) :
  ui a = Some o ->
  pauseBtn o = Some label ->
  isRunning a = true ->
  startTime (stats a) = Some t ->
  t <> 0 ->
  t <= now ->
  exists p m s,
    updateStats now a = Redrawn p
    /\ 0 <= m /\ 0 <= s < 60
    /\ (now - t) / 1000 = 60 * m + s
    /\ timeRunningText p
       = padStart2 (decimal m) ++ js ":" ++ padStart2 (decimal s)
    /\ (m < 100 -> length (timeRunningText p) = 5%nat).
Proof.
  intros Hui Hbtn Hrun Ht Hnz Hle.
  unfold updateStats. rewrite Hui, Hbtn, Hrun, Ht.
  set (elapsed := now - t).
  assert (He : 0 <= elapsed) by (unfold elapsed; lia).
  exists (mkStatsPanel
            (if isPaused a then js "Paused" else js "Running")
            (if isPaused a then js "ui-status stopped"
             else js "ui-status running")
            true false false
            (numberToString (charactersTyped (stats a)))
            (clockText elapsed)
            (if truthyNum (Some t) && true && negb (isPaused a)
             then if 0 <? elapsed
                  then RoundedPerMin
                         (num_of_Z (charactersTyped (stats a))
                          / (num_of_Z elapsed / 60000))%float
                  else ZeroPerMin
             else ZeroPerMin)).
  exists (elapsed / 60000), (Z.rem elapsed 60000 / 1000).
  assert (Htruthy : truthyNum (Some t) = true).
  { simpl. destruct (t =? 0) eqn:E; [apply Z.eqb_eq in E; lia | reflexivity]. }
  rewrite Htruthy. simpl andb. cbn iota.
  rewrite (Z.rem_mod_nonneg elapsed 60000) by lia.
  assert (Hm : 0 <= elapsed / 60000) by (apply Z.div_pos; lia).
  assert (Hs : 0 <= elapsed mod 60000 / 1000 < 60).
  { pose proof (Z.mod_pos_bound elapsed 60000 ltac:(lia)).
    split; [apply Z.div_pos; lia | apply Z.div_lt_upper_bound; lia]. }
  assert (Htext : clockText elapsed
                  = padStart2 (decimal (elapsed / 60000)) ++ js ":"
                    ++ padStart2 (decimal (elapsed mod 60000 / 1000))).
  { unfold clockText, numberToString.
    rewrite (Z.rem_mod_nonneg elapsed 60000) by lia.
    destruct (elapsed / 60000 <? 0) eqn:E1; [apply Z.ltb_lt in E1; lia |].
    destruct (elapsed mod 60000 / 1000 <? 0) eqn:E2;
      [apply Z.ltb_lt in E2; lia | reflexivity]. }
  split; [reflexivity |]. split; [exact Hm |]. split; [exact Hs |].
  split.
  - pose proof (Z.div_mod elapsed 60000 ltac:(lia)) as D1.
    pose proof (Z.div_mod (elapsed mod 60000) 1000 ltac:(lia)) as D2.
    pose proof (Z.mod_pos_bound (elapsed mod 60000) 1000 ltac:(lia)) as B2.
    symmetry. apply (Z.div_unique elapsed 1000 _
                       ((elapsed mod 60000) mod 1000)); lia.
  - simpl timeRunningText. split; [exact Htext |].
    intros Hlt. rewrite Htext. rewrite !length_app.
    pose proof (padStart2_two_digits (elapsed / 60000) ltac:(lia)) as L1.
    pose proof (padStart2_two_digits (elapsed mod 60000 / 1000) ltac:(lia))
      as L2.
    unfold numberToString in L1, L2.
    destruct (elapsed / 60000 <? 0) eqn:E1; [apply Z.ltb_lt in E1; lia |].
    destruct (elapsed mod 60000 / 1000 <? 0) eqn:E2;
      [apply Z.ltb_lt in E2; lia |].
    rewrite L1, L2. reflexivity.
Qed.

Lemma clock_shows_minutes_and_seconds_witness :
  exists p m s,
    updateStats 126500 (app started600) = Redrawn p
    /\ 0 <= m /\ 0 <= s < 60
    /\ (126500 - 1000) / 1000 = 60 * m + s
    /\ timeRunningText p
       = padStart2 (decimal m) ++ js ":" ++ padStart2 (decimal s)
    /\ (m < 100 -> length (timeRunningText p) = 5%nat).
Proof.
  apply (clock_shows_minutes_and_seconds 126500 1000 (app started600)
           {| pauseBtn := Some (js "Pause") |} (js "Pause")).
  - reflexivity.
  - reflexivity.
  - reflexivity.
  - reflexivity.
  - discriminate.
  - discriminate.
Defined.

Example clock_after_two_minutes :
  match updateStats 126500 (app started600) with
  | Redrawn p => timeRunningText p = js "02:05"
  | _ => False
  end.
Proof. reflexivity. Qed.

(** ** Minimizing and restoring *)

Lemma clickOverlay_settled (t : ClickTarget) (f : Frame) :
  restoreListeners f = 0%nat ->
  minimizeBtnText f = (if minimized f then js "+" else minusSign) ->
  restoreListeners (clickOverlay t f) = 0%nat
  /\ minimized (clickOverlay t f)
     = xorb (isMinimizeButton t) (minimized f)
  /\ minimizeBtnText (clickOverlay t f)
     = (if minimized (clickOverlay t f) then js "+" else minusSign).
Proof.
  intros H0 Htext. unfold clickOverlay.
  destruct t; simpl; try (rewrite H0; simpl; now repeat split).
  unfold toggleMinimize. rewrite H0.
  destruct (minimized f); simpl; now repeat split.
Qed.

(** X11: starting from the overlay as [createUI] builds it, after any
    sequence of clicks the overlay is minimized exactly when the
    minimize button was clicked an odd number of times, and no restore
    listener is left registered.  The listener [toggleMinimize] adds is
    used up by the click that added it (whose target is the minimize
    button, so [restoreFromMinimized] returns early); a later click on
    another part of the minimized overlay therefore does not restore
    it. *)
Theorem only_the_button_restores (targets : list ClickTarget) :
  let f := clicks targets frame0 in
  restoreListeners f = 0%nat
  /\ minimized f
     = Nat.odd (length (List.filter isMinimizeButton targets))
  /\ minimizeBtnText f = (if minimized f then js "+" else minusSign).
Proof.
  cbn zeta. unfold clicks.
  assert (H : forall ts f,
             restoreListeners f = 0%nat ->
             minimizeBtnText f = (if minimized f then js "+" else minusSign) ->
             let g := fold_left (fun f t => clickOverlay t f) ts f in
             restoreListeners g = 0%nat
             /\ minimized g
                = xorb (Nat.odd (length (List.filter isMinimizeButton ts)))
                       (minimized f)
             /\ minimizeBtnText g
                = (if minimized g then js "+" else minusSign)).
  { induction ts as [| t ts IH]; intros f H0 Ht; cbn zeta.
    - simpl. repeat split; assumption.
    - simpl fold_left.
      destruct (clickOverlay_settled t f H0 Ht) as (C0 & Cm & Ct).
      destruct (IH (clickOverlay t f) C0 Ct) as (I0 & Im & It).
      cbn zeta in *. repeat split; try assumption.
      rewrite Im, Cm. simpl List.filter.
      destruct (isMinimizeButton t); cbn iota; simpl length.
      + rewrite Nat.odd_succ, <- Nat.negb_odd.
        now destruct (Nat.odd _), (minimized f).
      + reflexivity. }
  destruct (H targets frame0 eq_refl eq_refl) as (H0 & Hm & Ht).
  cbn zeta in *. repeat split; try assumption.
  rewrite Hm. simpl. now rewrite xorb_false_r.
Qed.

Example minimized_overlay_ignores_clicks :
  clicks [MinimizeButton; OtherPart; OtherPart; ThemeButton] frame0
  = {| minimized := true; minimizeBtnText := js "+"; restoreListeners := 0 |}.
Proof. reflexivity. Qed.

(** ** Dragging the overlay *)

Lemma moves_without_drag (es : list PointerEvent) (d : DragState) :
  isDragging d = false ->
  forallb isMove es = true ->
  fold_left pointer es d = d.
Proof.
  intros Hd. induction es as [| e es IH]; intros Hes; [reflexivity |].
  simpl in Hes. apply andb_true_iff in Hes. destruct Hes as [He Hes].
  simpl. replace (pointer d e) with d; [now apply IH |].
  destruct e as [t x y | x y | | t x y | x y |]; try discriminate; simpl.
  - unfold drag. now rewrite Hd.
  - now rewrite Hd.
Qed.

Lemma drag_path (path : list PointerEvent) :
  forall (d : DragState) (px py : Z),
    isDragging d = true ->
    forallb isMove path = true ->
    currentX d = px - startX d ->
    currentY d = py - startY d ->
    let d' := fold_left pointer path d in
    isDragging d' = true
    /\ startX d' = startX d /\ startY d' = startY d
    /\ currentX d' = fst (lastPosition path (px, py)) - startX d
    /\ currentY d' = snd (lastPosition path (px, py)) - startY d
    /\ (path <> [] -> transform d' = Some (currentX d', currentY d')).
Proof.
  induction path as [| e path IH]; intros d px py Hd Hmoves Hcx Hcy.
  - simpl. repeat split; try assumption. congruence.
  - simpl in Hmoves. apply andb_true_iff in Hmoves.
    destruct Hmoves as [He Hmoves].
    assert (Hstep : exists x y,
               lastPosition (e :: path) (px, py) = lastPosition path (x, y)
               /\ pointer d e
                  = {| isDragging := true;
                       startX := startX d; startY := startY d;
                       currentX := x - startX d;
                       currentY := y - startY d;
                       cursor := cursor d;
                       transform := Some (x - startX d, y - startY d) |}).
    { destruct e as [t x y | x y | | t x y | x y |]; try discriminate;
        exists x, y; (split; [reflexivity |]); simpl;
        unfold drag; rewrite Hd; reflexivity. }
    destruct Hstep as (x & y & Hpos & Hptr).
    cbn zeta. simpl fold_left. rewrite Hptr, Hpos.
    set (d1 := {| isDragging := true |}).
    destruct (IH d1 x y eq_refl Hmoves eq_refl eq_refl)
      as (I1 & I2 & I3 & I4 & I5 & I6).
    simpl in I2, I3, I4, I5.
    repeat split; try assumption.
    intros _. destruct path as [| e' path'].
    + reflexivity.
    + apply I6. discriminate.
Qed.

(** X12: a press on the header outside its buttons starts a drag, by
    mouse or by touch.  While the pointer then moves, the overlay's
    offset is the offset it had at the press plus the displacement of
    the pointer since the press, and the transform written is that
    offset; after the release, moves no longer change anything. *)
Theorem drag_follows_the_pointer
    (d : DragState) (touch : bool) (target : PressTarget) (x0 y0 : Z)
    (path later : list PointerEvent) :
  startsDrag target = true ->
  forallb isMove path = true ->
  forallb isMove later = true ->
  let press := if touch then TouchStart target x0 y0
               else MouseDown target x0 y0 in
  let release := if touch then TouchEnd else MouseUp in
  let d' := fold_left pointer path (pointer d press) in
  let p := lastPosition path (x0, y0) in
  currentX d' = currentX d + (fst p - x0)
  /\ currentY d' = currentY d + (snd p - y0)
  /\ (path <> [] -> transform d' = Some (currentX d', currentY d'))
  /\ fold_left pointer later (pointer d' release) = pointer d' release.
Proof.
  intros Hstart Hpath Hlater. cbn zeta.
  unfold startsDrag in Hstart. apply andb_true_iff in Hstart.
  destruct Hstart as [Hh Hb]. apply negb_true_iff in Hb.
  assert (Hpress : pointer d (if touch then TouchStart target x0 y0
                              else MouseDown target x0 y0)
                   = {| isDragging := true;
                        startX := x0 - currentX d;
                        startY := y0 - currentY d;
                        currentX := currentX d;
                        currentY := currentY d;
                        cursor := Some (js "grabbing");
                        transform := transform d |}).
  { destruct touch; simpl; unfold dragStart; now rewrite Hh, Hb. }
  rewrite Hpress.
  set (d1 := {| isDragging := true |}).
  destruct (drag_path path d1 x0 y0 eq_refl Hpath)
    as (_ & _ & _ & I4 & I5 & I6); try (simpl; lia).
  simpl in I4, I5.
  split; [lia |]. split; [lia |]. split; [exact I6 |].
  apply moves_without_drag; [| exact Hlater].
  now destruct touch.
Qed.

Lemma drag_follows_the_pointer_witness :
  let d' := fold_left pointer [MouseMove 110 205; MouseMove 130 240]
              (pointer dragState0 (MouseDown titleBar 100 200)) in
  let p := lastPosition [MouseMove 110 205; MouseMove 130 240] (100, 200) in
  currentX d' = currentX dragState0 + (fst p - 100)
  /\ currentY d' = currentY dragState0 + (snd p - 200)
  /\ ([MouseMove 110 205; MouseMove 130 240] <> [] ->
      transform d' = Some (currentX d', currentY d'))
  /\ fold_left pointer [MouseMove 500 500] (pointer d' MouseUp)
     = pointer d' MouseUp.
Proof.
  apply (drag_follows_the_pointer dragState0 false titleBar 100 200
           [MouseMove 110 205; MouseMove 130 240] [MouseMove 500 500]).
  - reflexivity.
  - reflexivity.
  - reflexivity.
Defined.

Example two_drags_add_up :
  let d := fold_left pointer
             [MouseDown titleBar 100 200; MouseMove 130 240; MouseUp;
              MouseMove 300 300;
              TouchStart titleBar 10 10; TouchMove 5 0; TouchEnd]
             dragState0 in
  (currentX d, currentY d) = (25, 30) /\ transform d = Some (25, 30).
Proof. split; reflexivity. Qed.

(** ** The compatibility test *)

Lemma toLowerCase_app (a b : jsstring) :
  toLowerCase (a ++ b) = toLowerCase a ++ toLowerCase b.
Proof. unfold toLowerCase. apply map_app. Qed.

Lemma startsWith_app (needle rest : jsstring) :
  startsWith (needle ++ rest) needle = true.
Proof.
  induction needle as [| c needle IH]; [reflexivity |].
  simpl. now rewrite N.eqb_refl, IH.
Qed.

Lemma includes_startsWith (s needle : jsstring) :
  startsWith s needle = true -> includes s needle = true.
Proof. destruct s; simpl; intros ->; reflexivity. Qed.

Lemma includes_app (before needle after : jsstring) :
  includes (before ++ needle ++ after) needle = true.
Proof.
  induction before as [| c before IH].
  - change ([] ++ needle ++ after) with (needle ++ after).
    apply includes_startsWith, startsWith_app.
  - simpl. rewrite IH. apply orb_true_r.
Qed.

(** X13: the compatibility test is a substring test on the address, not
    a test of the host: any address that contains "typewriter.at" in any
    mix of upper and lower case, anywhere (host, path or query), is
    accepted, whatever the hostname is. *)
Theorem isCompatibleWebsite_substring
    (other before name after : jsstring) :
  toLowerCase name = js "typewriter.at" ->
  isCompatibleWebsite (before ++ name ++ after) other = true
  /\ isCompatibleWebsite other (before ++ name ++ after) = true.
Proof.
  intros Hname. unfold isCompatibleWebsite.
  rewrite !toLowerCase_app, Hname, includes_app.
  split; [now rewrite orb_true_r | reflexivity].
Qed.

Lemma isCompatibleWebsite_substring_witness :
  isCompatibleWebsite
    (js "https://example.com/?from=" ++ js "TypeWriter.AT" ++ js "&x=1")
    (js "example.com") = true
  /\ isCompatibleWebsite (js "example.com")
       (js "https://example.com/?from=" ++ js "TypeWriter.AT" ++ js "&x=1")
     = true.
Proof.
  apply (isCompatibleWebsite_substring (js "example.com")
           (js "https://example.com/?from=") (js "TypeWriter.AT")
           (js "&x=1")).
  reflexivity.
Defined.

Example isCompatibleWebsite_other_site :
  isCompatibleWebsite (js "https://example.com/typing") (js "example.com")
  = false.
Proof. reflexivity. Qed.
